(** * A shallow embedding of the retrieval-augmented chat-completion gateway

    Sources embedded here:
    - [src/mini-litellm-groq.py]   : the passthrough gateway ([Groq] module);
    - [src/mini-litellm-ollama.py] : the translating gateway ([Ollama] module);
    - [src/litellmmini/mini-litellm-ollama.py] : the translating gateway
      without retrieval ([MiniOllama] module).

    Python values decoded from JSON are modelled by the inductive [json];
    a Python dict is an association list in insertion order (keys distinct,
    as [json.loads] produces them).  Python exceptions are the error branch
    of a small result monad: an uncaught exception in a Flask view gives an
    HTTP 500 and no further effect.  The vector store and the collection
    registry are a [store] record: [get_all_collections] is the list of
    registered ids, and [store_topk id query k] stands for
    [get_chroma_db(id).as_retriever(search_kwargs={"k": k})
     .get_relevant_documents(query)] mapped to [page_content]. *)

From Stdlib Require Import List String Ascii ZArith Bool Lia.
From Stdlib Require Import Numbers.DecimalString.
Set Warnings "-register-all".
Import ListNotations.
Open Scope string_scope.

(** ** Python values and exceptions *)

Inductive json : Type :=
| JNull : json
| JBool : bool -> json
| JInt : Z -> json
| JFloat : string -> json          (* a float, carried by its Python repr *)
| JStr : string -> json
| JArr : list json -> json
| JObj : list (string * json) -> json.

Inductive py_error : Type :=
| KeyError : string -> py_error
| TypeError : string -> py_error
| AttributeError : string -> py_error
| JSONDecodeError : py_error
| StoreError : string -> py_error       (* any exception raised by the vector store *)
| ChunkedEncodingError : py_error       (* the backend connection broke mid-stream *)
| UnicodeDecodeError : py_error         (* [bytes.decode('utf-8')] of invalid UTF-8 *)
| InvalidJSONError : py_error.          (* [requests] refused to serialise a payload *)

Inductive result (A : Type) : Type :=
| Ok : A -> result A
| Err : py_error -> result A.
Arguments Ok {A} _.
Arguments Err {A} _.

Definition bind {A B} (m : result A) (k : A -> result B) : result B :=
  match m with Ok a => k a | Err e => Err e end.

Notation "x <- m ;; k" := (bind m (fun x => k))
  (at level 61, m at next level, right associativity).

Definition is_ok {A} (r : result A) : bool :=
  match r with Ok _ => true | Err _ => false end.

(** ** Characters and string helpers *)

Definition nl : string := String (ascii_of_nat 10) "".

(** [sep.join(xs)] *)
Fixpoint py_join (sep : string) (xs : list string) : string :=
  match xs with
  | [] => ""
  | [x] => x
  | x :: rest => x ++ sep ++ py_join sep rest
  end.

Definition Z_to_string (z : Z) : string :=
  NilEmpty.string_of_int (Z.to_int z).

(** ** Dict operations *)

Fixpoint assoc (d : list (string * json)) (k : string) : option json :=
  match d with
  | [] => None
  | (k', v) :: rest => if String.eqb k k' then Some v else assoc rest k
  end.

(** [d[k] = v]: replace in place when present, append otherwise. *)
Fixpoint assoc_set (d : list (string * json)) (k : string) (v : json)
  : list (string * json) :=
  match d with
  | [] => [(k, v)]
  | (k', v') :: rest =>
      if String.eqb k k' then (k', v) :: rest else (k', v') :: assoc_set rest k v
  end.

(** Observation used in statements: the value under a key of a dict. *)
Definition jget (j : json) (k : string) : option json :=
  match j with JObj d => assoc d k | _ => None end.

(** [obj.get(k, default)]; only dicts have [.get]. *)
Definition py_get (o : json) (k : string) (default : json) : result json :=
  match o with
  | JObj d => match assoc d k with Some v => Ok v | None => Ok default end
  | _ => Err (AttributeError "get")
  end.

(** [o[k]] with a string key. *)
Definition py_getitem (o : json) (k : string) : result json :=
  match o with
  | JObj d => match assoc d k with Some v => Ok v | None => Err (KeyError k) end
  | JArr _ | JStr _ => Err (TypeError "indices must be integers")
  | _ => Err (TypeError "object is not subscriptable")
  end.

(** [k in o] with a string key. *)
Definition py_contains (o : json) (k : string) : result bool :=
  match o with
  | JObj d => Ok (match assoc d k with Some _ => true | None => false end)
  | JArr l => Ok (existsb (fun x => match x with JStr s => String.eqb s k | _ => false end) l)
  | JStr s => Ok (match String.index 0 k s with Some _ => true | None => false end)
  | _ => Err (TypeError "argument is not iterable")
  end.

Fixpoint chars_of (s : string) : list json :=
  match s with
  | EmptyString => []
  | String c rest => JStr (String c "") :: chars_of rest
  end.

(** [for x in o]: a list yields its items, a dict its keys, a string its
    characters. *)
Definition py_iter (o : json) : result (list json) :=
  match o with
  | JArr l => Ok l
  | JObj d => Ok (map (fun kv => JStr (fst kv)) d)
  | JStr s => Ok (chars_of s)
  | _ => Err (TypeError "object is not iterable")
  end.

Fixpoint json_eqb (a b : json) : bool :=
  match a, b with
  | JNull, JNull => true
  | JBool x, JBool y => Bool.eqb x y
  | JInt x, JInt y => Z.eqb x y
  | JFloat x, JFloat y => String.eqb x y
  | JStr x, JStr y => String.eqb x y
  | JArr xs, JArr ys =>
      (fix go xs ys := match xs, ys with
        | [], [] => true
        | x :: xs', y :: ys' => json_eqb x y && go xs' ys'
        | _, _ => false end) xs ys
  | JObj xs, JObj ys =>
      (fix go xs ys := match xs, ys with
        | [], [] => true
        | (k, x) :: xs', (k', y) :: ys' => String.eqb k k' && json_eqb x y && go xs' ys'
        | _, _ => false end) xs ys
  | _, _ => false
  end.

(** Python truthiness of a JSON-decoded value. *)
Definition truthy (j : json) : bool :=
  match j with
  | JNull => false
  | JBool b => b
  | JInt z => negb (Z.eqb z 0)
  | JFloat r => negb (String.eqb r "0.0" || String.eqb r "-0.0")
  | JStr s => negb (String.eqb s "")
  | JArr l => negb (Nat.eqb (List.length l) 0)
  | JObj d => negb (Nat.eqb (List.length d) 0)
  end.

(** [str(v)] as used by an f-string ([top] = true), and the repr of an
    item nested in a container ([top] = false).  Strings print as
    themselves at top level and single-quoted inside containers (escaping
    inside such reprs is not modelled). *)
Fixpoint py_str_gen (top : bool) (j : json) : string :=
  match j with
  | JNull => "None"
  | JBool true => "True"
  | JBool false => "False"
  | JInt z => Z_to_string z
  | JFloat r => r
  | JStr s => if top then s else "'" ++ s ++ "'"
  | JArr l =>
      "[" ++ py_join ", "
        ((fix go (l : list json) : list string :=
            match l with [] => [] | x :: r => py_str_gen false x :: go r end) l) ++ "]"
  | JObj d =>
      "{" ++ py_join ", "
        ((fix go (d : list (string * json)) : list string :=
            match d with
            | [] => []
            | (k, v) :: r => ("'" ++ k ++ "': " ++ py_str_gen false v) :: go r
            end) d) ++ "}"
  end.

Definition py_str (j : json) : string := py_str_gen true j.

(** ** [json.dumps] with its default settings

    Separators [", "] and [": "], [ensure_ascii=True]: in a string, the
    quote and the backslash are escaped, [\n \r \t \b \f] get their short
    escapes, and every other character outside the printable ASCII range
    becomes [\u00XX] (strings are taken byte-wise, as ASCII text). *)

Definition hex_digit (n : nat) : ascii :=
  match String.get n "0123456789abcdef" with Some c => c | None => "0"%char end.

Definition hex_of_nat2 (n : nat) : string :=
  String (hex_digit (Nat.div n 16)) (String (hex_digit (Nat.modulo n 16)) "").

(** [bytes.hex()] *)
Fixpoint bytes_hex (bs : list Byte.byte) : string :=
  match bs with
  | [] => ""
  | b :: rest => hex_of_nat2 (Byte.to_nat b) ++ bytes_hex rest
  end.

Definition chr (n : nat) : string := String (ascii_of_nat n) EmptyString.

(** The double quote and the backslash, built from their codes. *)
Definition dquote : string := chr 34.
Definition bslash : string := chr 92.

Definition escape_char (c : ascii) : string :=
  let n := nat_of_ascii c in
  if Nat.eqb n 34 then bslash ++ dquote
  else if Nat.eqb n 92 then bslash ++ bslash
  else if Nat.eqb n 10 then bslash ++ "n"
  else if Nat.eqb n 13 then bslash ++ "r"
  else if Nat.eqb n 9 then bslash ++ "t"
  else if Nat.eqb n 8 then bslash ++ "b"
  else if Nat.eqb n 12 then bslash ++ "f"
  else if Nat.ltb n 32 || Nat.leb 127 n then bslash ++ "u00" ++ hex_of_nat2 n
  else String c EmptyString.

Fixpoint escape_string (s : string) : string :=
  match s with
  | EmptyString => ""
  | String c rest => escape_char c ++ escape_string rest
  end.

Definition dumps_str (s : string) : string := dquote ++ escape_string s ++ dquote.

Fixpoint json_dumps (j : json) : string :=
  match j with
  | JNull => "null"
  | JBool true => "true"
  | JBool false => "false"
  | JInt z => Z_to_string z
  | JFloat r =>
      if String.eqb r "inf" then "Infinity"
      else if String.eqb r "-inf" then "-Infinity"
      else if String.eqb r "nan" then "NaN" else r
  | JStr s => dumps_str s
  | JArr l =>
      "[" ++ py_join ", "
        ((fix go (l : list json) : list string :=
            match l with [] => [] | x :: r => json_dumps x :: go r end) l) ++ "]"
  | JObj d =>
      "{" ++ py_join ", "
        ((fix go (d : list (string * json)) : list string :=
            match d with
            | [] => []
            | (k, v) :: r => (dumps_str k ++ ": " ++ json_dumps v) :: go r
            end) d) ++ "}"
  end.

(** ** Collaborators: the collection registry and the vector store *)

Record store : Type := {
  (** ids of [get_all_collections()], in registry enumeration order *)
  get_all_collections : list string;
  (** the top-[k] page contents of a collection for a query, or the
      exception raised while opening or querying it *)
  store_topk : string -> json -> nat -> result (list string)
}.

(** ** Retrieval aggregator: [get_rag_context] (identical in both gateways) *)

(** The [for collection in collections] loop of [get_rag_context], with
    [contexts.extend(...)] as list append; no [try]: an exception of one
    lookup leaves the loop and the function. *)
Fixpoint rag_loop (st : store) (query : json) (collections : list string)
    (contexts : list string) : result (list string) :=
  match collections with
  | [] => Ok contexts
  | c :: rest =>
      docs <- store_topk st c query 2;;
      rag_loop st query rest (contexts ++ docs)
  end.

Definition get_rag_context (st : store) (query : json) : result string :=
  contexts <- rag_loop st query (get_all_collections st) [];;
  Ok (py_join (nl ++ nl) contexts).

(** ** Request normalisation shared by both gateways *)

(** [next((msg['content'] for msg in messages if msg['role'] == 'user'), "")] *)
Fixpoint first_user_content (msgs : list json) : result json :=
  match msgs with
  | [] => Ok (JStr "")
  | msg :: rest =>
      role <- py_getitem msg "role";;
      if json_eqb role (JStr "user") then py_getitem msg "content"
      else first_user_content rest
  end.

Definition context_preamble : string :=
  "Use the following context to answer the user's question:" ++ nl ++ nl.

(** [{"role": "system", "content": f"Use the following context ...\n\n{rag_context}"}] *)
Definition system_message (rag_context : string) : json :=
  JObj [("role", JStr "system"); ("content", JStr (context_preamble ++ rag_context))].

(** A message as a client sends it. *)
Definition mkmsg (role content : string) : json :=
  JObj [("role", JStr role); ("content", JStr content)].

(** What [chat_completions] hands to [stream_response] or
    [normal_response]: the [stream] value (tested with [if stream:]) and
    the payload that is POSTed to the backend, once. *)
Record backend_call : Type := {
  call_stream : json;
  call_payload : json
}.

(** The float reprs Python gives to NaN and the infinities ([request.json]
    reads [NaN], [Infinity] and out-of-range numbers such as [1e400]). *)
Definition float_finite (r : string) : bool :=
  negb (String.eqb r "inf" || String.eqb r "-inf" || String.eqb r "nan").

(** No NaN or infinite float anywhere in the value. *)
Fixpoint json_finite (j : json) : bool :=
  match j with
  | JFloat r => float_finite r
  | JArr l =>
      (fix go (l : list json) : bool :=
         match l with [] => true | x :: r => json_finite x && go r end) l
  | JObj d =>
      (fix go (d : list (string * json)) : bool :=
         match d with [] => true | (_, v) :: r => json_finite v && go r end) d
  | _ => true
  end.

(** [requests.post(url, json=payload)] serialises the payload with
    [json.dumps(payload, allow_nan=False)] before anything is sent: a NaN or
    infinite float makes it raise [InvalidJSONError] instead. *)
Definition post_payload (payload : json) : result json :=
  if json_finite payload then Ok payload else Err InvalidJSONError.

(** Number of backend requests one handler run makes: [chat_completions]
    either raises before the POST, or its payload is handed to
    [requests.post] once, which sends it unless serialising it raises. *)
Definition backend_calls (r : result backend_call) : nat :=
  match r with
  | Ok c => match post_payload (call_payload c) with Ok _ => 1 | Err _ => 0 end
  | Err _ => 0
  end.

(** HTTP status of the handler run when the backend answers 2xx: an
    uncaught exception in a Flask view is a 500; so is one raised by
    [requests.post] at the start of a stream generator, before its first
    frame (the server has not sent the status line yet). *)
Definition http_status (r : result backend_call) : Z :=
  match r with
  | Ok c => match post_payload (call_payload c) with Ok _ => 200 | Err _ => 500 end
  | Err _ => 500
  end.

Definition data_frame_prefix : string := "data: ".

(** ["data: [DONE]\n\n"] *)
Definition done_frame : string := "data: [DONE]" ++ nl ++ nl.

(** The backend's HTTP response body as [response.iter_lines()] sees it:
    its lines, and whether the connection broke after them (then
    [iter_lines] raises instead of ending). *)
Record backend_stream : Type := {
  bs_lines : list string;
  bs_broken : bool
}.

(** What a [generate()] generator does: the frames it yields, then either
    a normal end or the exception it raises. *)
Record gen_out : Type := {
  frames : list string;
  raised : option py_error
}.

(** ** Decoding a backend line

    [bytes.decode('utf-8')] (strict): a line is a byte string, and it
    decodes exactly when it is well-formed UTF-8 (no overlong forms, no
    surrogates, nothing above U+10FFFF). *)

Definition byte_in (lo hi : nat) (c : ascii) : bool :=
  Nat.leb lo (nat_of_ascii c) && Nat.leb (nat_of_ascii c) hi.

Fixpoint utf8_valid (s : string) : bool :=
  match s with
  | EmptyString => true
  | String c0 r0 =>
      let n := nat_of_ascii c0 in
      if Nat.ltb n 128 then utf8_valid r0
      else if Nat.leb 194 n && Nat.leb n 223 then
        match r0 with
        | String c1 r1 => byte_in 128 191 c1 && utf8_valid r1
        | EmptyString => false
        end
      else if Nat.leb 224 n && Nat.leb n 239 then
        match r0 with
        | String c1 (String c2 r2) =>
            byte_in (if Nat.eqb n 224 then 160 else 128) (if Nat.eqb n 237 then 159 else 191) c1
            && byte_in 128 191 c2 && utf8_valid r2
        | _ => false
        end
      else if Nat.leb 240 n && Nat.leb n 244 then
        match r0 with
        | String c1 (String c2 (String c3 r3)) =>
            byte_in (if Nat.eqb n 240 then 144 else 128) (if Nat.eqb n 244 then 143 else 191) c1
            && byte_in 128 191 c2 && byte_in 128 191 c3 && utf8_valid r3
        | _ => false
        end
      else false
  end.

(** ** The passthrough gateway: [src/mini-litellm-groq.py] *)
Module Groq.

Definition sampling_params : list string :=
  ["temperature"; "max_tokens"; "top_p"; "frequency_penalty"; "presence_penalty"].

(** [for param in [...]: if param in data: groq_payload[param] = data[param]] *)
Fixpoint add_params (data : json) (params : list string) (payload : list (string * json))
  : result (list (string * json)) :=
  match params with
  | [] => Ok payload
  | p :: rest =>
      present <- py_contains data p;;
      if present then
        v <- py_getitem data p;;
        add_params data rest (assoc_set payload p v)
      else add_params data rest payload
  end.

Definition chat_completions (GROQ_MODEL : string) (st : store) (data : json)
  : result backend_call :=
  stream <- py_get data "stream" (JBool false);;
  msgs <- py_get data "messages" (JArr []);;
  msgs_it <- py_iter msgs;;
  user_query <- first_user_content msgs_it;;
  rag_context <- get_rag_context st user_query;;
  msgs' <- py_get data "messages" (JArr []);;
  msgs_it' <- py_iter msgs';;                     (* *data.get('messages', []) *)
  payload <- add_params data sampling_params
               [("model", JStr GROQ_MODEL);
                ("messages", JArr (system_message rag_context :: msgs_it'));
                ("stream", stream)];;
  Ok {| call_stream := stream; call_payload := JObj payload |}.

(** The [for line in response.iter_lines()] loop of [generate()]: every
    non-empty backend line is decoded and yielded followed by a blank line
    (the decoded text is encoded back to the same bytes); a line that does
    not decode raises [UnicodeDecodeError] and ends the generator. *)
Fixpoint relay (lines : list string) : gen_out :=
  match lines with
  | [] => {| frames := []; raised := None |}
  | line :: rest =>
      if String.eqb line "" then relay rest
      else if utf8_valid line then
        let r := relay rest in
        {| frames := (line ++ nl ++ nl) :: frames r; raised := raised r |}
      else {| frames := []; raised := Some UnicodeDecodeError |}
  end.

(** [generate()] of [stream_response]; a broken connection makes
    [iter_lines] raise after the lines received. *)
Definition stream_response (bs : backend_stream) : gen_out :=
  let r := relay (bs_lines bs) in
  match raised r with
  | Some e => r
  | None =>
      {| frames := frames r;
         raised := if bs_broken bs then Some ChunkedEncodingError else None |}
  end.

End Groq.

(** The backend lines the passthrough relay gets through: those before the
    first non-empty line that is not valid UTF-8. *)
Fixpoint decoded_prefix (lines : list string) : list string :=
  match lines with
  | [] => []
  | line :: rest =>
      if String.eqb line "" || utf8_valid line then line :: decoded_prefix rest else []
  end.

(** ** Prompt flattening of the translating gateways *)

(** [[f"{msg['role']}: {msg['content']}" for msg in messages]] *)
Fixpoint render_lines (messages : list json) : result (list string) :=
  match messages with
  | [] => Ok []
  | msg :: rest =>
      role <- py_getitem msg "role";;
      content <- py_getitem msg "content";;
      lines <- render_lines rest;;
      Ok ((py_str role ++ ": " ++ py_str content) :: lines)
  end.

(** ["\n".join(...)] of the rendered messages *)
Definition flatten_prompt (messages : list json) : result string :=
  lines <- render_lines messages;;
  Ok (py_join nl lines).

(** ** Envelope synthesis of the translating gateways

    [os.urandom(12)] and [int(time.time())] are the arguments [rnd] and
    [now]; the stream generator draws them per chunk from [urandom] and
    [clock], indexed by the number of chunks formatted so far. *)
Module Envelope.

Definition format_chunk (OLLAMA_MODEL : string) (rnd : list Byte.byte) (now : Z)
    (ollama_chunk : json) : result json :=
  content <- py_get ollama_chunk "response" (JStr "");;
  done_ <- py_get ollama_chunk "done" (JBool false);;
  Ok (JObj [("id", JStr ("chatcmpl-" ++ bytes_hex rnd));
            ("object", JStr "chat.completion.chunk");
            ("created", JInt now);
            ("model", JStr OLLAMA_MODEL);
            ("choices", JArr [JObj [("index", JInt 0);
                                    ("delta", JObj [("content", content)]);
                                    ("finish_reason",
                                       if truthy done_ then JStr "stop" else JNull)]])]).

Definition format_response (OLLAMA_MODEL : string) (rnd : list Byte.byte) (now : Z)
    (ollama_response : json) : result json :=
  content <- py_getitem ollama_response "response";;
  Ok (JObj [("id", JStr ("chatcmpl-" ++ bytes_hex rnd));
            ("object", JStr "chat.completion");
            ("created", JInt now);
            ("model", JStr OLLAMA_MODEL);
            ("choices", JArr [JObj [("index", JInt 0);
                                    ("message", JObj [("role", JStr "assistant");
                                                      ("content", content)]);
                                    ("finish_reason", JStr "stop")]]);
            ("usage", JObj [("prompt_tokens", JInt (-1));
                            ("completion_tokens", JInt (-1));
                            ("total_tokens", JInt (-1))])]).

(** [normal_response]: [response.json()] is [loads body]. *)
Definition normal_response (loads : string -> result json) (OLLAMA_MODEL : string)
    (rnd : list Byte.byte) (now : Z) (body : string) : result json :=
  ollama_response <- loads body;;
  format_response OLLAMA_MODEL rnd now ollama_response.

(** [f"data: {json.dumps(chunk)}\n\n"] *)
Definition chunk_frame (chunk : json) : string :=
  data_frame_prefix ++ json_dumps chunk ++ nl ++ nl.

(** The [for line in response.iter_lines()] loop of [generate()];
    [i] counts the chunks formatted so far. *)
Fixpoint gen_loop (loads : string -> result json) (OLLAMA_MODEL : string)
    (urandom : nat -> list Byte.byte) (clock : nat -> Z) (i : nat) (lines : list string)
  : gen_out :=
  match lines with
  | [] => {| frames := []; raised := None |}
  | line :: rest =>
      if String.eqb line "" then gen_loop loads OLLAMA_MODEL urandom clock i rest
      else
        match bind (loads line) (format_chunk OLLAMA_MODEL (urandom i) (clock i)) with
        | Err e => {| frames := []; raised := Some e |}
        | Ok chunk =>
            let r := gen_loop loads OLLAMA_MODEL urandom clock (S i) rest in
            {| frames := chunk_frame chunk :: frames r; raised := raised r |}
        end
  end.

(** [generate()] of [stream_response]: the loop, then, when it ended
    without an exception, [yield "data: [DONE]\n\n"]. *)
Definition stream_response (loads : string -> result json) (OLLAMA_MODEL : string)
    (urandom : nat -> list Byte.byte) (clock : nat -> Z) (bs : backend_stream) : gen_out :=
  let r := gen_loop loads OLLAMA_MODEL urandom clock 0 (bs_lines bs) in
  match raised r with
  | Some e => r
  | None =>
      if bs_broken bs then {| frames := frames r; raised := Some ChunkedEncodingError |}
      else {| frames := frames r ++ [done_frame]; raised := None |}
  end.

End Envelope.

(** ** The translating gateway with retrieval: [src/mini-litellm-ollama.py] *)
Module Ollama.

(** [[system_message] + messages]: list concatenation needs a list. *)
Definition prepend_system (sys : json) (messages : json) : result (list json) :=
  match messages with
  | JArr l => Ok (sys :: l)
  | _ => Err (TypeError "can only concatenate list to list")
  end.

Definition chat_completions (OLLAMA_MODEL : string) (st : store) (data : json)
  : result backend_call :=
  messages <- py_get data "messages" (JArr []);;
  stream <- py_get data "stream" (JBool false);;
  msgs_it <- py_iter messages;;
  user_query <- first_user_content msgs_it;;
  rag_context <- get_rag_context st user_query;;
  messages' <- prepend_system (system_message rag_context) messages;;
  prompt <- flatten_prompt messages';;
  Ok {| call_stream := stream;
        call_payload := JObj [("model", JStr OLLAMA_MODEL);
                              ("prompt", JStr prompt);
                              ("stream", stream)] |}.

End Ollama.

(** ** The translating gateway without retrieval:
       [src/litellmmini/mini-litellm-ollama.py] *)
Module MiniOllama.

Definition chat_completions (OLLAMA_MODEL : string) (data : json) : result backend_call :=
  messages <- py_get data "messages" (JArr []);;
  stream <- py_get data "stream" (JBool false);;
  msgs_it <- py_iter messages;;
  prompt <- flatten_prompt msgs_it;;
  Ok {| call_stream := stream;
        call_payload := JObj [("model", JStr OLLAMA_MODEL);
                              ("prompt", JStr prompt);
                              ("stream", stream)] |}.

End MiniOllama.

(** ** Observations and concrete inputs used by the statements *)

(** The value [d.get(k, default)] evaluates to on a dict [d]. *)
Definition dict_get (d : list (string * json)) (k : string) (default : json) : json :=
  match assoc d k with Some v => v | None => default end.

(** [choices[0]] of an envelope *)
Definition choice0 (env : json) : option json :=
  match jget env "choices" with Some (JArr (c :: _)) => Some c | _ => None end.

Definition finish_reason (env : json) : option json :=
  match choice0 env with Some c => jget c "finish_reason" | None => None end.

Definition delta_content (env : json) : option json :=
  match choice0 env with
  | Some c => match jget c "delta" with Some dl => jget dl "content" | None => None end
  | None => None
  end.

Definition payload_messages (r : result backend_call) : option json :=
  match r with Ok c => jget (call_payload c) "messages" | Err _ => None end.

Definition payload_prompt (r : result backend_call) : option json :=
  match r with Ok c => jget (call_payload c) "prompt" | Err _ => None end.

(** The content of the first [(role, content)] pair whose role is "user". *)
Definition first_user (ps : list (string * string)) : string :=
  match find (fun p => String.eqb (fst p) "user") ps with
  | Some (_, c) => c
  | None => ""
  end.

Definition mkmsgs (ps : list (string * string)) : list json :=
  map (fun p => mkmsg (fst p) (snd p)) ps.

Definition render_pair (p : string * string) : string := fst p ++ ": " ++ snd p.

(** A registry with no collection. *)
Definition empty_store : store :=
  {| get_all_collections := []; store_topk := fun _ _ _ => Ok [] |}.

(** One collection whose retriever returns the query text itself. *)
Definition echo_store : store :=
  {| get_all_collections := ["docs"]; store_topk := fun _ q _ => Ok [py_str q] |}.

(** Collection "A" is missing from the vector store, "B" answers. *)
Definition ab_store : store :=
  {| get_all_collections := ["A"; "B"];
     store_topk := fun c _ _ =>
       if String.eqb c "A" then Err (StoreError "collection A does not exist")
       else Ok ["b1"; "b2"] |}.

(** One collection returning the passage "X is a widget.". *)
Definition widget_store : store :=
  {| get_all_collections := ["widgets"]; store_topk := fun _ _ _ => Ok ["X is a widget."] |}.

Definition three_msgs : list (string * string) :=
  [("user", "hi"); ("assistant", "hello"); ("user", "how are you")].

Definition three_line_prompt : string :=
  "user: hi" ++ nl ++ "assistant: hello" ++ nl ++ "user: how are you".

(** ** The passthrough gateway without retrieval:
       [src/litellmmini/mini-litellm-groq.py] *)
Module MiniGroq.

Definition chat_completions (GROQ_MODEL : string) (data : json) : result backend_call :=
  stream <- py_get data "stream" (JBool false);;
  msgs <- py_get data "messages" (JArr []);;
  payload <- Groq.add_params data Groq.sampling_params
               [("model", JStr GROQ_MODEL); ("messages", msgs); ("stream", stream)];;
  Ok {| call_stream := stream; call_payload := JObj payload |}.

End MiniGroq.

(** ** The collection registry: [src/collection_manager.py]

    The SQLite database is [None] before [init_db] has created the
    [collections] table (every statement then raises "no such table") and
    [Some rows] after.  Rows are kept in the order of the table's rowid, the
    order [SELECT *] scans them; [INSERT OR REPLACE] on an existing id
    deletes the old row and inserts a new one with a fresh rowid, so it
    comes last.  [created_at] is the [CURRENT_TIMESTAMP] text of the
    statement that inserted the row, given as the argument [now]. *)
Module CollectionManager.

Record row : Type := {
  row_id : string;
  row_name : string;
  row_file_name : string;
  row_created_at : string
}.

Definition db : Type := option (list row).

(** [CREATE TABLE IF NOT EXISTS collections (...)] *)
Definition init_db (d : db) : db :=
  match d with Some rows => Some rows | None => Some [] end.

Definition same_id (id : string) (r : row) : bool := String.eqb (row_id r) id.

(** [INSERT OR REPLACE INTO collections (id, name, file_name) VALUES (?, ?, ?)] *)
Definition add_collection (d : db) (collection_id collection_name file_name now : string)
  : option db :=
  match d with
  | None => None
  | Some rows =>
      Some (Some (app (filter (fun r => negb (same_id collection_id r)) rows)
                  [{| row_id := collection_id; row_name := collection_name;
                         row_file_name := file_name; row_created_at := now |}]))
  end.

(** The dict built from a fetched row. *)
Definition row_dict (r : row) : json :=
  JObj [("id", JStr (row_id r)); ("name", JStr (row_name r));
        ("file_name", JStr (row_file_name r)); ("created_at", JStr (row_created_at r))].

(** [SELECT * FROM collections WHERE id = ?] then [fetchone()]; the outer
    [None] is the "no such table" error. *)
Definition get_collection_info (d : db) (collection_id : string) : option (option json) :=
  match d with
  | None => None
  | Some rows =>
      Some (match find (same_id collection_id) rows with
            | Some r => Some (row_dict r)
            | None => None
            end)
  end.

(** [SELECT * FROM collections] then [fetchall()] *)
Definition get_all_collections (d : db) : option (list json) :=
  match d with
  | None => None
  | Some rows => Some (map row_dict rows)
  end.

(** [DELETE FROM collections WHERE id = ?] *)
Definition delete_collection (d : db) (collection_id : string) : option db :=
  match d with
  | None => None
  | Some rows => Some (Some (filter (fun r => negb (same_id collection_id r)) rows))
  end.

(** [UPDATE collections SET name = ? WHERE id = ?] *)
Definition update_collection_name (d : db) (collection_id new_name : string) : option db :=
  match d with
  | None => None
  | Some rows =>
      Some (Some (map (fun r => if same_id collection_id r
                                then {| row_id := row_id r; row_name := new_name;
                                        row_file_name := row_file_name r;
                                        row_created_at := row_created_at r |}
                                else r) rows))
  end.

(** The gateway's view: [collection['id']] of each fetched row, in order,
    with the vector store's lookup [topk]. *)
Definition store_of (rows : list row)
    (topk : string -> json -> nat -> result (list string)) : store :=
  Build_store (map row_id rows) topk.

End CollectionManager.

(** ** Observations for the further properties *)

(** Every character of [s] is printable ASCII (codes 32 to 126). *)
Fixpoint all_printable (s : string) : bool :=
  match s with
  | EmptyString => true
  | String c rest =>
      Nat.leb 32 (nat_of_ascii c) && Nat.ltb (nat_of_ascii c) 127 && all_printable rest
  end.

(** Every float of [j] has a printable repr (as Python's float reprs are). *)
Fixpoint floats_printable (j : json) : bool :=
  match j with
  | JFloat r => all_printable r
  | JArr l =>
      (fix go (l : list json) : bool :=
         match l with [] => true | x :: r => floats_printable x && go r end) l
  | JObj d =>
      (fix go (d : list (string * json)) : bool :=
         match d with [] => true | (_, v) :: r => floats_printable v && go r end) d
  | _ => true
  end.

(** The prompt line of the context system message. *)
Definition system_line (ctx : string) : string := "system: " ++ context_preamble ++ ctx.

(** The row [UPDATE ... SET name = ? WHERE id = ?] makes of [r]. *)
Definition rename (id new_name : string) (r : CollectionManager.row) : CollectionManager.row :=
  if CollectionManager.same_id id r
  then {| CollectionManager.row_id := CollectionManager.row_id r;
          CollectionManager.row_name := new_name;
          CollectionManager.row_file_name := CollectionManager.row_file_name r;
          CollectionManager.row_created_at := CollectionManager.row_created_at r |}
  else r.

(** A registry of one collection, and a vector store knowing only "A". *)
Definition one_row : CollectionManager.row :=
  {| CollectionManager.row_id := "A"; CollectionManager.row_name := "a";
     CollectionManager.row_file_name := "a.pdf"; CollectionManager.row_created_at := "t" |}.

Definition topk_const (docs : list string) : string -> json -> nat -> result (list string) :=
  fun c _ _ => if String.eqb c "A" then Ok docs else Err (StoreError "no collection").

(** A vector store that agrees with [topk_const ["x"]] on "A" and answers
    for every other collection name too. *)
Definition topk_other : string -> json -> nat -> result (list string) :=
  fun c _ _ => if String.eqb c "A" then Ok ["x"] else Ok ["unregistered"].

(** What the chunk formatted from a backend line says, in terms of the
    dict [d] that the line parses to. *)
Definition chunk_of_line (loads : string -> result json) (line : string) (ch : json) : Prop :=
  exists d, loads line = Ok (JObj d)
    /\ delta_content ch = Some (dict_get d "response" (JStr ""))
    /\ finish_reason ch
       = Some (if truthy (dict_get d "done" (JBool false)) then JStr "stop" else JNull).

(** The lines [generate()] formats: [if line:]. *)
Definition nonempty_lines (lines : list string) : list string :=
  filter (fun l => negb (String.eqb l "")) lines.

(** Induction over JSON values with the items of arrays and objects. *)
Definition json_nested_ind (P : json -> Prop)
    (HNull : P JNull) (HBool : forall b, P (JBool b)) (HInt : forall z, P (JInt z))
    (HFloat : forall r, P (JFloat r)) (HStr : forall s, P (JStr s))
    (HArr : forall l, Forall P l -> P (JArr l))
    (HObj : forall d, Forall (fun kv => P (snd kv)) d -> P (JObj d)) : forall j, P j :=
  fix go (j : json) : P j :=
    match j with
    | JNull => HNull
    | JBool b => HBool b
    | JInt z => HInt z
    | JFloat r => HFloat r
    | JStr s => HStr s
    | JArr l =>
        HArr l ((fix gl (l : list json) : Forall P l :=
                   match l with
                   | [] => Forall_nil P
                   | x :: r => Forall_cons x (go x) (gl r)
                   end) l)
    | JObj d =>
        HObj d ((fix gd (d : list (string * json)) : Forall (fun kv => P (snd kv)) d :=
                   match d with
                   | [] => Forall_nil _
                   | (k, v) :: r => Forall_cons (P := fun kv => P (snd kv)) (k, v) (go v) (gd r)
                   end) d)
    end.

(** Every character of [s] is a lowercase hexadecimal digit. *)
Fixpoint lower_hex (s : string) : bool :=
  match s with
  | EmptyString => true
  | String c rest =>
      let n := nat_of_ascii c in
      ((Nat.leb 48 n && Nat.leb n 57) || (Nat.leb 97 n && Nat.leb n 102)) && lower_hex rest
  end.

(** A backend stream line [{"response": text, "done": flag}] as Ollama
    writes it, and [json.loads] on the two lines used below. *)
Definition ollama_line (text : string) (done_ : bool) : string :=
  "{" ++ dquote ++ "response" ++ dquote ++ ": " ++ dquote ++ text ++ dquote ++ ", "
  ++ dquote ++ "done" ++ dquote ++ ": " ++ (if done_ then "true" else "false") ++ "}".

Definition ab_loads (line : string) : result json :=
  if String.eqb line (ollama_line "a" false)
  then Ok (JObj [("response", JStr "a"); ("done", JBool false)])
  else if String.eqb line (ollama_line "b" true)
  then Ok (JObj [("response", JStr "b"); ("done", JBool true)])
  else Err JSONDecodeError.

(** Random draws: the [k]-th call of [os.urandom] gives the byte [k]. *)
Definition counter_urandom (k : nat) : list Byte.byte :=
  [match Byte.of_nat k with Some b => b | None => Byte.x00 end].

(** The value of a lowercase hexadecimal digit. *)
Definition hex_val (c : ascii) : nat :=
  if Nat.leb (nat_of_ascii c) 57 then nat_of_ascii c - 48 else nat_of_ascii c - 87.

(** A body whose second message has no "role", after an assistant message. *)
Definition x8_body : list (string * json) :=
  [("messages", JArr [mkmsg "assistant" "x"; JObj [("content", JStr "y")];
                      mkmsg "user" "q"])].

(** * Properties *)

(** ** Helper lemmas *)

Lemma assoc_set_assoc (d : list (string * json)) (p k : string) (v : json) :
  assoc (assoc_set d p v) k = if String.eqb k p then Some v else assoc d k.
Proof.
  induction d as [| [k' v'] rest IH]; cbn [assoc assoc_set].
  - destruct (String.eqb k p); reflexivity.
  - destruct (String.eqb p k') eqn:Hpk; cbn [assoc].
    + apply String.eqb_eq in Hpk; subst k'.
      destruct (String.eqb k p); reflexivity.
    + rewrite IH. destruct (String.eqb k p) eqn:Hkp; [|reflexivity].
      apply String.eqb_eq in Hkp; subst k.
      rewrite Hpk. reflexivity.
Qed.

Lemma rag_loop_ok (st : store) (q : json) (cols acc res : list string) :
  rag_loop st q cols acc = Ok res <->
  exists pss, Forall2 (fun c ps => store_topk st c q 2 = Ok ps) cols pss
              /\ res = app acc (List.concat pss).
Proof.
  revert acc. induction cols as [| c rest IH]; intro acc; simpl.
  - split.
    + intro H. injection H as <-. exists []. split; [constructor | simpl; rewrite app_nil_r; reflexivity].
    + intros [pss [Hf ->]]. inversion Hf; subst. simpl. rewrite app_nil_r. reflexivity.
  - destruct (store_topk st c q 2) as [docs | e] eqn:Hc; simpl.
    + rewrite IH. split.
      * intros [pss [Hf ->]]. exists (docs :: pss). split.
        -- constructor; assumption.
        -- simpl. rewrite app_assoc. reflexivity.
      * intros [pss [Hf ->]]. inversion Hf as [| c' ps rest' pss' Hc' Hf']; subst.
        rewrite Hc in Hc'. injection Hc' as <-.
        exists pss'. split; [assumption | simpl; rewrite app_assoc; reflexivity].
    + split; [discriminate |].
      intros [pss [Hf _]]. inversion Hf; subst. congruence.
Qed.

Lemma rag_loop_err (st : store) (q : json) (cols acc : list string) (c : string) (e : py_error) :
  In c cols -> store_topk st c q 2 = Err e ->
  exists e', rag_loop st q cols acc = Err e'.
Proof.
  revert acc. induction cols as [| c0 rest IH]; intros acc Hin He; [destruct Hin |].
  simpl. destruct (store_topk st c0 q 2) as [docs | e0] eqn:Hc0; simpl.
  - destruct Hin as [-> | Hin]; [congruence |]. apply IH; assumption.
  - exists e0. reflexivity.
Qed.

(** ** C1: the retrieval query *)

Lemma first_user_content_mkmsgs (ps : list (string * string)) :
  first_user_content (mkmsgs ps) = Ok (JStr (first_user ps)).
Proof.
  unfold first_user. induction ps as [| [r c] rest IH]; [reflexivity |].
  change (mkmsgs ((r, c) :: rest)) with (mkmsg r c :: mkmsgs rest).
  cbn [first_user_content]. simpl.
  destruct (String.eqb r "user"); [reflexivity | exact IH].
Qed.

(** C1 (as stated, refuted).  With two user messages "a" then "b", the
    query handed to retrieval is "a", the first one: a retriever that
    returns its query shows it in the system message. *)
Lemma C1_query_is_first_user_message :
  payload_messages
    (Groq.chat_completions "m" echo_store
       (JObj [("messages", JArr (mkmsgs [("user", "a"); ("user", "b")]))]))
  = Some (JArr (system_message "a" :: mkmsgs [("user", "a"); ("user", "b")]))
  /\ system_message "a" <> system_message "b".
Proof. split; [reflexivity | discriminate]. Qed.

(** C1 (amended).  For a conversation of well-formed messages the query
    [chat_completions] hands to [get_rag_context] is the content of the
    FIRST message whose role is "user", or "" when there is none. *)
Theorem C1_first_user_query (ps : list (string * string)) :
  first_user_content (mkmsgs ps) = Ok (JStr (first_user ps)).
Proof. apply first_user_content_mkmsgs. Qed.

(** ** C2: a failing collection *)

Lemma py_get_obj (d : list (string * json)) (k : string) (default : json) :
  py_get (JObj d) k default = Ok (dict_get d k default).
Proof. unfold py_get, dict_get. destruct (assoc d k); reflexivity. Qed.

(** C2 (as stated, refuted).  Collection "A" raises and "B" answers:
    retrieval raises as a whole, and the request makes no backend call. *)
Lemma C2_failing_collection_aborts :
  get_rag_context ab_store (JStr "q") = Err (StoreError "collection A does not exist")
  /\ backend_calls
       (Groq.chat_completions "m" ab_store (JObj [("messages", JArr [mkmsg "user" "q"])])) = 0
  /\ backend_calls
       (Ollama.chat_completions "m" ab_store (JObj [("messages", JArr [mkmsg "user" "q"])])) = 0.
Proof. repeat split; reflexivity. Qed.

(** C2 (amended).  If the top-k lookup of any registered collection raises,
    [get_rag_context] raises: no collection is skipped.  So a request whose
    conversation yields that query fails in both retrieval gateways before
    any backend call. *)
Theorem C2_any_failing_lookup_fails_retrieval (st : store) (q : json) (c : string) (e : py_error)
  (Hin : In c (get_all_collections st)) (Hfail : store_topk st c q 2 = Err e) :
  (exists e', get_rag_context st q = Err e')
  /\ forall m dd it,
       py_iter (dict_get dd "messages" (JArr [])) = Ok it -> first_user_content it = Ok q ->
       (exists e', Groq.chat_completions m st (JObj dd) = Err e')
       /\ backend_calls (Groq.chat_completions m st (JObj dd)) = 0
       /\ (exists e', Ollama.chat_completions m st (JObj dd) = Err e')
       /\ backend_calls (Ollama.chat_completions m st (JObj dd)) = 0.
Proof.
  destruct (rag_loop_err st q (get_all_collections st) [] c e Hin Hfail) as [e' He'].
  assert (Hr : get_rag_context st q = Err e') by (unfold get_rag_context; rewrite He'; reflexivity).
  split; [exists e'; exact Hr |].
  intros m dd it Hit Hq.
  unfold Groq.chat_completions, Ollama.chat_completions. rewrite !py_get_obj. cbn [bind].
  rewrite Hit. cbn [bind]. rewrite Hq. cbn [bind]. rewrite Hr. cbn [bind].
  split; [exists e'; reflexivity | split; [reflexivity | split; [exists e'; reflexivity | reflexivity]]].
Qed.

Lemma C2_any_failing_lookup_fails_retrieval_witness :
  In "A" (get_all_collections ab_store)
  /\ store_topk ab_store "A" (JStr "q") 2 = Err (StoreError "collection A does not exist")
  /\ backend_calls
       (Ollama.chat_completions "m" ab_store (JObj [("messages", JArr [mkmsg "user" "q"])])) = 0.
Proof.
  split; [simpl; left; reflexivity |]. split; [reflexivity |].
  refine (proj2 (proj2 (proj2 (proj2 (C2_any_failing_lookup_fails_retrieval ab_store (JStr "q") "A"
           (StoreError "collection A does not exist") _ eq_refl)
           "m" [("messages", JArr [mkmsg "user" "q"])] [mkmsg "user" "q"] eq_refl eq_refl)))).
  simpl; left; reflexivity.
Defined.

(** ** C8: the context string *)

(** C8.  Retrieval succeeds with context [s] exactly when every registered
    collection answers its top-2 lookup, and [s] is then all the passages,
    collection by collection in enumeration order and in rank order inside
    a collection, joined by one blank line ("\n\n"); with no collection
    registered the context is "". *)
Theorem C8_context_concatenation :
  (forall (st : store) (q : json) (s : string),
     get_rag_context st q = Ok s <->
     exists pss, Forall2 (fun c ps => store_topk st c q 2 = Ok ps) (get_all_collections st) pss
                 /\ s = py_join (nl ++ nl) (List.concat pss))
  /\ (forall topk q, get_rag_context {| get_all_collections := []; store_topk := topk |} q = Ok "").
Proof.
  split; [| reflexivity].
  intros st q s. unfold get_rag_context.
  destruct (rag_loop st q (get_all_collections st) []) as [ctx | e] eqn:Hr; simpl.
  - pose proof (proj1 (rag_loop_ok st q _ [] ctx) Hr) as [pss [Hf Hctx]]. simpl in Hctx.
    split.
    + intro H. injection H as <-. exists pss. subst. split; [assumption | reflexivity].
    + intros [pss' [Hf' ->]]. subst ctx. f_equal. f_equal.
      clear Hr. revert pss' Hf'. induction Hf as [| c ps cs pss0 Hc Hf IH]; intros pss' Hf';
        inversion Hf' as [| c' ps' cs' pss1 Hc' Hf'']; subst; [reflexivity |].
      rewrite Hc in Hc'. injection Hc' as <-. simpl. f_equal. apply IH. assumption.
  - split; [discriminate |].
    intros [pss [Hf _]].
    assert (Hok : rag_loop st q (get_all_collections st) [] = Ok (app [] (List.concat pss)))
      by (apply rag_loop_ok; exists pss; split; [assumption | reflexivity]).
    congruence.
Qed.

(** ** C3: the terminal sentinel *)

Lemma format_chunk_obj (m : string) (rnd : list Byte.byte) (now : Z) (c ch : json) :
  Envelope.format_chunk m rnd now c = Ok ch -> exists d, ch = JObj d.
Proof.
  unfold Envelope.format_chunk.
  destruct (py_get c "response" (JStr "")); simpl; [| discriminate].
  destruct (py_get c "done" (JBool false)); simpl; [| discriminate].
  intro H. injection H as <-. eexists. reflexivity.
Qed.

Lemma chunk_frame_not_done (d : list (string * json)) :
  Envelope.chunk_frame (JObj d) <> done_frame.
Proof.
  intro H. apply (f_equal (String.get 6)) in H. cbn in H. congruence.
Qed.

Lemma gen_loop_no_done (loads : string -> result json) (m : string)
    (urandom : nat -> list Byte.byte) (clock : nat -> Z) (i : nat) (lines : list string) :
  ~ In done_frame (frames (Envelope.gen_loop loads m urandom clock i lines)).
Proof.
  revert i. induction lines as [| line rest IH]; intro i; simpl; [tauto |].
  destruct (String.eqb line ""); [apply IH |].
  destruct (bind (loads line) (Envelope.format_chunk m (urandom i) (clock i))) as [ch | e] eqn:E;
    simpl; [| tauto].
  intros [Hd | Hin]; [| exact (IH (S i) Hin)].
  destruct (loads line) as [j |]; simpl in E; [| discriminate].
  destruct (format_chunk_obj _ _ _ _ _ E) as [d ->].
  exact (chunk_frame_not_done d Hd).
Qed.

Lemma string_length_app (a b : string) :
  String.length (a ++ b) = String.length a + String.length b.
Proof. induction a as [| c a IH]; simpl; [reflexivity | rewrite IH; reflexivity]. Qed.

Lemma append_inj_r (a b s : string) : a ++ s = b ++ s -> a = b.
Proof.
  intro H. assert (Hlen : String.length a = String.length b).
  { apply (f_equal String.length) in H. rewrite !string_length_app in H. lia. }
  revert b H Hlen. induction a as [| c a IH]; intros [| c' b] H Hlen;
    simpl in *; try discriminate; [reflexivity |].
  injection H as -> H. f_equal. apply IH; [exact H | lia].
Qed.

Lemma relay_count (lines : list string) :
  count_occ string_dec (frames (Groq.relay lines)) done_frame
  = count_occ string_dec (decoded_prefix lines) "data: [DONE]"
  /\ (raised (Groq.relay lines) = None -> decoded_prefix lines = lines).
Proof.
  induction lines as [| line rest [IHc IHp]]; [split; reflexivity |].
  cbn [Groq.relay decoded_prefix].
  destruct (String.eqb line "") eqn:Hempty; cbn [orb].
  - apply String.eqb_eq in Hempty. subst line. cbn [count_occ].
    destruct (string_dec "" "data: [DONE]") as [H | _]; [discriminate |].
    split; [exact IHc | intro H; rewrite (IHp H); reflexivity].
  - destruct (utf8_valid line); cbv zeta; cbn [frames raised count_occ].
    + rewrite IHc. split; [| intro H; rewrite (IHp H); reflexivity].
      destruct (string_dec (line ++ nl ++ nl) done_frame) as [Hd | Hd];
        destruct (string_dec line "data: [DONE]") as [Hl | Hl]; try reflexivity.
      * exfalso. apply Hl. apply (append_inj_r _ _ (nl ++ nl)). exact Hd.
      * exfalso. apply Hd. subst line. reflexivity.
    + split; [reflexivity | discriminate].
Qed.

(** C3 (as stated, refuted).  The passthrough gateway adds no sentinel of
    its own: a backend stream that closes without a ["data: [DONE]"] line
    is relayed with no sentinel at all. *)
Lemma C3_passthrough_stream_without_sentinel :
  frames (Groq.stream_response {| bs_lines := ["data: {}"]; bs_broken := false |})
    = ["data: {}" ++ nl ++ nl]
  /\ count_occ string_dec
       (frames (Groq.stream_response {| bs_lines := ["data: {}"]; bs_broken := false |}))
       done_frame = 0.
Proof. split; reflexivity. Qed.

(** C3 (amended).  Translating gateway: when [generate()] ends without an
    exception (the backend stream closed normally and every non-empty line
    parsed and formatted), its frames are chunk frames followed by the
    sentinel, which occurs exactly once and last, whatever the backend's
    done flags were; when it raises (broken connection, unparsable line) it
    has emitted no sentinel.  Passthrough gateway: no sentinel of its own;
    the sentinel occurs in the output exactly as often as the backend sent
    the line ["data: [DONE]"] before its first line that is not valid
    UTF-8 (where the relay raises), so exactly as often as the backend sent
    it when the relay ends without an exception. *)
Theorem C3_sentinel_exactly_once_translating :
  (forall loads m urandom clock bs,
     raised (Envelope.stream_response loads m urandom clock bs) = None ->
     exists fs, frames (Envelope.stream_response loads m urandom clock bs) = app fs [done_frame]
                /\ ~ In done_frame fs
                /\ count_occ string_dec (frames (Envelope.stream_response loads m urandom clock bs))
                     done_frame = 1)
  /\ (forall loads m urandom clock bs e,
        raised (Envelope.stream_response loads m urandom clock bs) = Some e ->
        ~ In done_frame (frames (Envelope.stream_response loads m urandom clock bs)))
  /\ (forall bs,
        count_occ string_dec (frames (Groq.stream_response bs)) done_frame
        = count_occ string_dec (decoded_prefix (bs_lines bs)) "data: [DONE]"
        /\ (raised (Groq.stream_response bs) = None ->
            count_occ string_dec (frames (Groq.stream_response bs)) done_frame
            = count_occ string_dec (bs_lines bs) "data: [DONE]")).
Proof.
  split; [| split].
  - intros loads m urandom clock bs Hr.
    unfold Envelope.stream_response in *. cbv zeta in *.
    destruct (raised (Envelope.gen_loop loads m urandom clock 0 (bs_lines bs))) eqn:E;
      [congruence |].
    destruct (bs_broken bs); simpl in Hr; [discriminate |]. simpl.
    exists (frames (Envelope.gen_loop loads m urandom clock 0 (bs_lines bs))).
    pose proof (gen_loop_no_done loads m urandom clock 0 (bs_lines bs)) as Hno.
    split; [reflexivity | split; [exact Hno |]].
    rewrite count_occ_app. simpl. destruct (string_dec done_frame done_frame); [| congruence].
    rewrite (proj1 (count_occ_not_In _ _ _) Hno). reflexivity.
  - intros loads m urandom clock bs e Hr.
    unfold Envelope.stream_response in *. cbv zeta in *.
    pose proof (gen_loop_no_done loads m urandom clock 0 (bs_lines bs)) as Hno.
    destruct (raised (Envelope.gen_loop loads m urandom clock 0 (bs_lines bs))); [exact Hno |].
    destruct (bs_broken bs); simpl in Hr; [exact Hno | discriminate].
  - intros [lines broken]. unfold Groq.stream_response. cbv zeta. cbn [bs_lines bs_broken].
    destruct (relay_count lines) as [Hc Hp].
    destruct (raised (Groq.relay lines)) eqn:E; cbn [frames raised].
    + split; [exact Hc | intro H; congruence].
    + split; [exact Hc |]. intros _. rewrite Hc, (Hp eq_refl). reflexivity.
Qed.

(** ** Payload construction: helper lemmas *)

Lemma add_params_ok (dd : list (string * json)) (params : list string)
    (payload : list (string * json)) :
  exists res, Groq.add_params (JObj dd) params payload = Ok res
  /\ forall k, assoc res k =
       if existsb (String.eqb k) params
       then match assoc dd k with Some v => Some v | None => assoc payload k end
       else assoc payload k.
Proof.
  revert payload. induction params as [| p rest IH]; intro payload.
  - exists payload. split; reflexivity.
  - cbn [Groq.add_params py_contains bind].
    destruct (assoc dd p) as [v |] eqn:Hp; cbn [bind py_getitem]; rewrite ?Hp; cbn [bind].
    + destruct (IH (assoc_set payload p v)) as [res [Hrun Hres]].
      exists res. split; [exact Hrun |]. intro k.
      rewrite Hres, assoc_set_assoc. cbn [existsb].
      destruct (String.eqb k p) eqn:Hkp; simpl.
      * apply String.eqb_eq in Hkp. subst k. rewrite Hp.
        destruct (existsb (String.eqb p) rest); reflexivity.
      * reflexivity.
    + destruct (IH payload) as [res [Hrun Hres]].
      exists res. split; [exact Hrun |]. intro k.
      rewrite Hres. cbn [existsb].
      destruct (String.eqb k p) eqn:Hkp; simpl; [| reflexivity].
      apply String.eqb_eq in Hkp. subst k. rewrite Hp.
      destruct (existsb (String.eqb p) rest); reflexivity.
Qed.

Lemma not_sampling_param (k : string) :
  existsb (String.eqb k) Groq.sampling_params = false <-> ~ In k Groq.sampling_params.
Proof.
  split.
  - intros Hf Hin. assert (existsb (String.eqb k) Groq.sampling_params = true) as Ht.
    { apply existsb_exists. exists k. split; [exact Hin | apply String.eqb_refl]. }
    congruence.
  - intro Hnot. destruct (existsb (String.eqb k) Groq.sampling_params) eqn:Hex; [| reflexivity].
    apply existsb_exists in Hex. destruct Hex as [x [Hx Heq]].
    apply String.eqb_eq in Heq. subst x. contradiction.
Qed.

(** ** Finite payloads *)

Lemma json_finite_obj (d : list (string * json)) :
  json_finite (JObj d) = true <-> Forall (fun kv => json_finite (snd kv) = true) d.
Proof.
  induction d as [| [k v] d IH]; [split; intros; [constructor | reflexivity] |].
  change (json_finite (JObj ((k, v) :: d))) with (json_finite v && json_finite (JObj d)).
  rewrite andb_true_iff, IH. split.
  - intros [Hv Hd]. constructor; assumption.
  - intro H. inversion H; subst. split; assumption.
Qed.

Lemma json_finite_arr (l : list json) :
  json_finite (JArr l) = true <-> Forall (fun x => json_finite x = true) l.
Proof.
  induction l as [| x l IH]; [split; intros; [constructor | reflexivity] |].
  change (json_finite (JArr (x :: l))) with (json_finite x && json_finite (JArr l)).
  rewrite andb_true_iff, IH. split.
  - intros [Hx Hl]. constructor; assumption.
  - intro H. inversion H; subst. split; assumption.
Qed.

Lemma finite_dict_get (d : list (string * json)) (k : string) (default : json) :
  json_finite (JObj d) = true -> json_finite default = true ->
  json_finite (dict_get d k default) = true.
Proof.
  intros Hd Hdef. apply json_finite_obj in Hd. unfold dict_get.
  induction Hd as [| [k' v] d Hv _ IH]; cbn [assoc]; [exact Hdef |].
  destruct (String.eqb k k'); [exact Hv | exact IH].
Qed.

Lemma finite_assoc_set (d : list (string * json)) (k : string) (v : json) :
  Forall (fun kv => json_finite (snd kv) = true) d -> json_finite v = true ->
  Forall (fun kv => json_finite (snd kv) = true) (assoc_set d k v).
Proof.
  intros Hd Hv. induction Hd as [| [k' v'] d Hv' Hd' IH]; cbn [assoc_set].
  - constructor; [exact Hv | constructor].
  - destruct (String.eqb k k'); constructor; assumption.
Qed.

Lemma finite_add_params (dd : list (string * json)) (params : list string)
    (payload res : list (string * json)) :
  json_finite (JObj dd) = true ->
  Forall (fun kv => json_finite (snd kv) = true) payload ->
  Groq.add_params (JObj dd) params payload = Ok res ->
  json_finite (JObj res) = true.
Proof.
  intros Hdd. revert payload. induction params as [| p rest IH]; intros payload Hp Hrun.
  - injection Hrun as <-. apply json_finite_obj. exact Hp.
  - cbn [Groq.add_params py_contains bind] in Hrun.
    destruct (assoc dd p) as [v |] eqn:E; cbn [bind py_getitem] in Hrun; rewrite ?E in Hrun;
      cbn [bind] in Hrun.
    + apply (IH (assoc_set payload p v)); [| exact Hrun].
      apply finite_assoc_set; [exact Hp |].
      pose proof (finite_dict_get dd p JNull Hdd eq_refl) as H. unfold dict_get in H.
      rewrite E in H. exact H.
    + exact (IH payload Hp Hrun).
Qed.

Lemma finite_chars_of (s : string) : Forall (fun x => json_finite x = true) (chars_of s).
Proof. induction s as [| c s IH]; constructor; [reflexivity | exact IH]. Qed.

Lemma finite_py_iter (j : json) (it : list json) :
  json_finite j = true -> py_iter j = Ok it -> Forall (fun x => json_finite x = true) it.
Proof.
  intros Hj Hit. destruct j as [| | | | s | l | d]; try discriminate; injection Hit as <-.
  - apply finite_chars_of.
  - apply json_finite_arr. exact Hj.
  - clear Hj. induction d as [| kv d IH]; constructor; [reflexivity | exact IH].
Qed.

(** When the payload holds no NaN or infinite float, a built request is sent once. *)
Lemma backend_calls_finite (c : backend_call) :
  json_finite (call_payload c) = true -> backend_calls (Ok c) = 1.
Proof. intro H. unfold backend_calls, post_payload. rewrite H. reflexivity. Qed.

(** ** C4: a body without "messages" *)

(** C4 (as stated, refuted).  The body [{}] is not answered with a 400:
    it is handled as an empty conversation and the backend is called once. *)
Lemma C4_missing_messages_calls_backend :
  backend_calls (Groq.chat_completions "m" empty_store (JObj [])) = 1
  /\ http_status (Groq.chat_completions "m" empty_store (JObj [])) = 200%Z
  /\ backend_calls (Ollama.chat_completions "m" empty_store (JObj [])) = 1
  /\ http_status (Ollama.chat_completions "m" empty_store (JObj [])) = 200%Z.
Proof. repeat split; reflexivity. Qed.

(** C4 (amended).  A body lacking "messages" is read as an empty
    conversation ([data.get('messages', [])]): the retrieval query is "",
    and when retrieval succeeds with context [ctx] the request is not
    refused: its messages are the system message alone (passthrough) or
    its prompt is that message's single line (translating), and exactly one
    backend call is made when the body holds no NaN or infinite number
    (which [requests] refuses to serialise). *)
Theorem C4_missing_messages_is_empty_conversation (m : string) (st : store)
    (dd : list (string * json)) (ctx : string)
    (Hnone : assoc dd "messages" = None) (Hfin : json_finite (JObj dd) = true)
    (Hctx : get_rag_context st (JStr "") = Ok ctx) :
  backend_calls (Groq.chat_completions m st (JObj dd)) = 1
  /\ payload_messages (Groq.chat_completions m st (JObj dd)) = Some (JArr [system_message ctx])
  /\ backend_calls (Ollama.chat_completions m st (JObj dd)) = 1
  /\ payload_prompt (Ollama.chat_completions m st (JObj dd))
     = Some (JStr ("system: " ++ context_preamble ++ ctx)).
Proof.
  assert (Hm : dict_get dd "messages" (JArr []) = JArr []) by (unfold dict_get; rewrite Hnone; reflexivity).
  assert (Hs : json_finite (dict_get dd "stream" (JBool false)) = true)
    by (apply finite_dict_get; [exact Hfin | reflexivity]).
  destruct (add_params_ok dd Groq.sampling_params
              [("model", JStr m); ("messages", JArr [system_message ctx]);
               ("stream", dict_get dd "stream" (JBool false))]) as [res [Hrun Hres]].
  assert (HG : Groq.chat_completions m st (JObj dd)
               = Ok {| call_stream := dict_get dd "stream" (JBool false);
                       call_payload := JObj res |}).
  { unfold Groq.chat_completions. rewrite !py_get_obj. cbn [bind]. rewrite Hm.
    cbn [py_iter bind first_user_content]. rewrite Hctx. cbn [bind]. rewrite Hrun. reflexivity. }
  assert (HO : Ollama.chat_completions m st (JObj dd)
               = Ok {| call_stream := dict_get dd "stream" (JBool false);
                       call_payload := JObj [("model", JStr m);
                                             ("prompt", JStr ("system: " ++ context_preamble ++ ctx));
                                             ("stream", dict_get dd "stream" (JBool false))] |}).
  { unfold Ollama.chat_completions. rewrite !py_get_obj. cbn [bind]. rewrite Hm.
    cbn [py_iter bind first_user_content]. rewrite Hctx.
    cbn [bind Ollama.prepend_system flatten_prompt render_lines system_message py_getitem assoc].
    reflexivity. }
  rewrite HG, HO. split; [| split; [| split]].
  - apply backend_calls_finite. cbn [call_payload].
    refine (finite_add_params dd Groq.sampling_params _ res Hfin _ Hrun).
    repeat (constructor || exact Hs).
  - cbn [payload_messages call_payload jget]. rewrite Hres. reflexivity.
  - apply backend_calls_finite. cbn [call_payload json_finite]. rewrite Hs. reflexivity.
  - reflexivity.
Qed.

Lemma C4_missing_messages_is_empty_conversation_witness :
  assoc [] "messages" = None /\ json_finite (JObj []) = true
  /\ get_rag_context empty_store (JStr "") = Ok ""
  /\ backend_calls (Groq.chat_completions "m" empty_store (JObj [])) = 1
  /\ payload_messages (Groq.chat_completions "m" empty_store (JObj []))
     = Some (JArr [system_message ""])
  /\ backend_calls (Ollama.chat_completions "m" empty_store (JObj [])) = 1
  /\ payload_prompt (Ollama.chat_completions "m" empty_store (JObj []))
     = Some (JStr ("system: " ++ context_preamble ++ "")).
Proof.
  split; [reflexivity | split; [reflexivity | split; [reflexivity |]]].
  apply (C4_missing_messages_is_empty_conversation "m" empty_store [] ""); reflexivity.
Defined.

(** ** C5: the augmented message sequence *)

(** C5.  When the body's messages are the list [l] and retrieval returns
    [ctx], the messages of the passthrough gateway's backend payload are
    the system message carrying [ctx] followed by [l] unchanged and in
    order, however many turns [l] has; the translating gateway flattens
    exactly that sequence, system message first, into its prompt. *)
Theorem C5_system_message_first (m : string) (st : store) (dd : list (string * json))
    (l : list json) (q : json) (ctx : string)
    (Hmsgs : assoc dd "messages" = Some (JArr l)) (Hq : first_user_content l = Ok q)
    (Hctx : get_rag_context st q = Ok ctx) :
  payload_messages (Groq.chat_completions m st (JObj dd))
  = Some (JArr (system_message ctx :: l))
  /\ payload_prompt (Ollama.chat_completions m st (JObj dd))
     = match flatten_prompt (system_message ctx :: l) with
       | Ok p => Some (JStr p)
       | Err _ => None
       end.
Proof.
  assert (Hm : dict_get dd "messages" (JArr []) = JArr l)
    by (unfold dict_get; rewrite Hmsgs; reflexivity).
  destruct (add_params_ok dd Groq.sampling_params
              [("model", JStr m); ("messages", JArr (system_message ctx :: l));
               ("stream", dict_get dd "stream" (JBool false))]) as [res [Hrun Hres]].
  unfold Groq.chat_completions, Ollama.chat_completions.
  rewrite !py_get_obj. cbn [bind]. rewrite Hm. cbn [py_iter bind].
  rewrite Hq. cbn [bind]. rewrite Hctx. cbn [bind Ollama.prepend_system].
  rewrite Hrun. cbn [bind payload_messages call_payload jget].
  rewrite Hres. simpl existsb. cbn [assoc]. simpl String.eqb. cbv iota.
  split; [reflexivity |].
  destruct (flatten_prompt (system_message ctx :: l)); reflexivity.
Qed.

Lemma C5_system_message_first_witness :
  payload_messages
    (Groq.chat_completions "m" widget_store (JObj [("messages", JArr (mkmsgs three_msgs))]))
  = Some (JArr (system_message "X is a widget." :: mkmsgs three_msgs))
  /\ payload_prompt
       (Ollama.chat_completions "m" widget_store (JObj [("messages", JArr (mkmsgs three_msgs))]))
     = Some (JStr (py_join nl (("system: " ++ context_preamble ++ "X is a widget.")
                                :: map render_pair three_msgs))).
Proof.
  apply (C5_system_message_first "m" widget_store
           [("messages", JArr (mkmsgs three_msgs))]
           (mkmsgs three_msgs) (JStr "hi") "X is a widget."); reflexivity.
Defined.

(** ** C9: sampling parameters *)

(** C9 (as stated, refuted).  An unrecognised parameter ("seed") is not
    passed through by the passthrough gateway, and the translating gateway
    forwards not even a recognised one ("temperature"). *)
Lemma C9_unrecognised_param_dropped :
  (exists c, Groq.chat_completions "m" empty_store
               (JObj [("messages", JArr []); ("seed", JInt 7)]) = Ok c
             /\ jget (call_payload c) "seed" = None)
  /\ (exists c, Ollama.chat_completions "m" empty_store
                  (JObj [("messages", JArr []); ("temperature", JFloat "0.2")]) = Ok c
                /\ jget (call_payload c) "temperature" = None).
Proof. split; eexists; split; reflexivity. Qed.

(** C9 (amended).  The passthrough gateway copies each of the five listed
    sampling parameters (temperature, max_tokens, top_p, frequency_penalty,
    presence_penalty) unmodified when the body has it, and no other key of
    the body: its payload has no key besides model, messages, stream and
    those five.  It does not validate their values: whether the request is
    built does not depend on them (only on the messages and retrieval), and
    it is sent whenever the body holds no NaN or infinite number, which
    [requests] refuses to serialise.  The translating gateway's payload is
    exactly model, prompt and stream. *)
Theorem C9_whitelisted_params_only :
  (forall m st data c,
     Groq.chat_completions m st data = Ok c ->
     (forall k, In k Groq.sampling_params -> jget (call_payload c) k = jget data k)
     /\ (forall k, ~ In k ("model" :: "messages" :: "stream" :: Groq.sampling_params) ->
                   jget (call_payload c) k = None))
  /\ (forall m st dd it q ctx,
        py_iter (dict_get dd "messages" (JArr [])) = Ok it ->
        first_user_content it = Ok q -> get_rag_context st q = Ok ctx ->
        exists c, Groq.chat_completions m st (JObj dd) = Ok c
          /\ (forall k, In k Groq.sampling_params -> jget (call_payload c) k = assoc dd k)
          /\ (json_finite (JObj dd) = true -> backend_calls (Ok c) = 1))
  /\ (forall m st data c,
        Ollama.chat_completions m st data = Ok c ->
        exists p s, call_payload c = JObj [("model", JStr m); ("prompt", p); ("stream", s)]).
Proof.
  split; [| split].
  - intros m st data c Hc.
    destruct data as [| | | | | | dd]; try discriminate.
    unfold Groq.chat_completions in Hc. rewrite !py_get_obj in Hc. cbn [bind] in Hc.
    destruct (py_iter (dict_get dd "messages" (JArr []))) as [it |]; cbn [bind] in Hc;
      [| discriminate].
    destruct (first_user_content it) as [q |]; cbn [bind] in Hc; [| discriminate].
    destruct (get_rag_context st q) as [ctx |]; cbn [bind] in Hc; [| discriminate].
    match type of Hc with
    | context [Groq.add_params (JObj dd) Groq.sampling_params ?p0] =>
        destruct (add_params_ok dd Groq.sampling_params p0) as [res [Hrun Hres]]
    end.
    rewrite Hrun in Hc. cbn [bind] in Hc. injection Hc as <-. cbn [call_payload jget].
    split.
    + intros k Hin. rewrite Hres.
      simpl in Hin.
      destruct Hin as [<- | [<- | [<- | [<- | [<- | []]]]]]; simpl;
        destruct (assoc dd _); reflexivity.
    + intros k Hnot. rewrite Hres.
      assert (Hnp : ~ In k Groq.sampling_params) by (intro H; apply Hnot; right; right; right; exact H).
      apply not_sampling_param in Hnp. rewrite Hnp. cbn [assoc].
      destruct (String.eqb k "model") eqn:E1;
        [apply String.eqb_eq in E1; subst; exfalso; apply Hnot; left; reflexivity |].
      destruct (String.eqb k "messages") eqn:E2;
        [apply String.eqb_eq in E2; subst; exfalso; apply Hnot; right; left; reflexivity |].
      destruct (String.eqb k "stream") eqn:E3;
        [apply String.eqb_eq in E3; subst; exfalso; apply Hnot; right; right; left; reflexivity |].
      reflexivity.
  - intros m st dd it q ctx Hit Hq Hctx.
    destruct (add_params_ok dd Groq.sampling_params
                [("model", JStr m); ("messages", JArr (system_message ctx :: it));
                 ("stream", dict_get dd "stream" (JBool false))]) as [res [Hrun Hres]].
    eexists. split.
    { unfold Groq.chat_completions. rewrite !py_get_obj. cbn [bind]. rewrite Hit. cbn [bind].
      rewrite Hq. cbn [bind]. rewrite Hctx. cbn [bind]. rewrite Hrun. reflexivity. }
    split.
    + intros k Hin. cbn [call_payload jget]. rewrite Hres.
      simpl in Hin.
      destruct Hin as [<- | [<- | [<- | [<- | [<- | []]]]]]; simpl;
        destruct (assoc dd _); reflexivity.
    + intro Hfin. apply backend_calls_finite. cbn [call_payload].
      refine (finite_add_params dd Groq.sampling_params _ res Hfin _ Hrun).
      assert (Hmf : json_finite (dict_get dd "messages" (JArr [])) = true)
        by (apply finite_dict_get; [exact Hfin | reflexivity]).
      pose proof (finite_py_iter _ _ Hmf Hit) as Hitf.
      assert (Hs : json_finite (dict_get dd "stream" (JBool false)) = true)
        by (apply finite_dict_get; [exact Hfin | reflexivity]).
      repeat constructor; [| exact Hs]. cbn [snd]. apply json_finite_arr.
      constructor; [reflexivity | exact Hitf].
  - intros m st data c Hc.
    destruct data as [| | | | | | dd]; try discriminate.
    unfold Ollama.chat_completions in Hc. rewrite !py_get_obj in Hc. cbn [bind] in Hc.
    destruct (py_iter (dict_get dd "messages" (JArr []))) as [it |]; cbn [bind] in Hc;
      [| discriminate].
    destruct (first_user_content it) as [q |]; cbn [bind] in Hc; [| discriminate].
    destruct (get_rag_context st q) as [ctx |]; cbn [bind] in Hc; [| discriminate].
    destruct (Ollama.prepend_system (system_message ctx) (dict_get dd "messages" (JArr [])))
      as [msgs |]; cbn [bind] in Hc; [| discriminate].
    destruct (flatten_prompt msgs) as [p |]; cbn [bind] in Hc; [| discriminate].
    injection Hc as <-. do 2 eexists. reflexivity.
Qed.

(** ** C6: prompt flattening *)

Lemma render_lines_mkmsgs (ps : list (string * string)) :
  render_lines (mkmsgs ps) = Ok (map render_pair ps).
Proof.
  induction ps as [| [r c] rest IH]; [reflexivity |].
  change (mkmsgs ((r, c) :: rest)) with (mkmsg r c :: mkmsgs rest).
  cbn [render_lines]. simpl py_getitem. cbn [bind]. rewrite IH. reflexivity.
Qed.

(** C6.  The translating adapter flattens the sequence it is handed by
    rendering each message as "{role}: {content}" and joining them with
    single newlines, so the three-message example gives exactly the
    three-line prompt; the translating gateway without retrieval sends
    exactly that flattening, and the one with retrieval sends the
    flattening of the sequence it hands over, the augmented one, whose
    first line is "system: Use the following context ..." (with the
    retrieved context). *)
Theorem C6_prompt_is_flattened_sequence (m : string) (st : store) (ps : list (string * string)) :
  flatten_prompt (mkmsgs ps) = Ok (py_join nl (map render_pair ps))
  /\ payload_prompt (MiniOllama.chat_completions m (JObj [("messages", JArr (mkmsgs ps))]))
     = Some (JStr (py_join nl (map render_pair ps)))
  /\ payload_prompt (Ollama.chat_completions m st (JObj [("messages", JArr (mkmsgs ps))]))
     = match get_rag_context st (JStr (first_user ps)) with
       | Ok ctx => Some (JStr (py_join nl (("system: " ++ context_preamble ++ ctx)
                                           :: map render_pair ps)))
       | Err _ => None
       end
  /\ py_join nl (map render_pair three_msgs) = three_line_prompt.
Proof.
  assert (Hm : dict_get [("messages", JArr (mkmsgs ps))] "messages" (JArr []) = JArr (mkmsgs ps))
    by reflexivity.
  split; [| split; [| split]].
  - unfold flatten_prompt. rewrite render_lines_mkmsgs. reflexivity.
  - unfold MiniOllama.chat_completions. rewrite !py_get_obj. cbn [bind].
    rewrite Hm. cbn [py_iter bind].
    unfold flatten_prompt. rewrite render_lines_mkmsgs. reflexivity.
  - unfold Ollama.chat_completions. rewrite !py_get_obj. cbn [bind].
    rewrite Hm. cbn [py_iter bind]. rewrite first_user_content_mkmsgs. cbn [bind].
    destruct (get_rag_context st (JStr (first_user ps))) as [ctx |]; [| reflexivity].
    cbn [bind Ollama.prepend_system]. unfold flatten_prompt.
    cbn [render_lines system_message]. simpl py_getitem. cbn [bind].
    rewrite render_lines_mkmsgs. reflexivity.
  - reflexivity.
Qed.

(** ** C7: synthesised envelopes *)

Lemma format_chunk_id (m : string) (rnd : list Byte.byte) (now : Z) (j ch : json) :
  Envelope.format_chunk m rnd now j = Ok ch ->
  jget ch "id" = Some (JStr ("chatcmpl-" ++ bytes_hex rnd)) /\ jget ch "created" = Some (JInt now).
Proof.
  unfold Envelope.format_chunk.
  destruct (py_get j "response" (JStr "")); cbn [bind]; [| discriminate].
  destruct (py_get j "done" (JBool false)); cbn [bind]; [| discriminate].
  intro H. injection H as <-. split; reflexivity.
Qed.

Lemma gen_loop_ids (loads : string -> result json) (m : string)
    (urandom : nat -> list Byte.byte) (clock : nat -> Z) (i : nat) (lines : list string) :
  exists chs, frames (Envelope.gen_loop loads m urandom clock i lines)
              = map Envelope.chunk_frame chs
    /\ forall k ch, nth_error chs k = Some ch ->
         jget ch "id" = Some (JStr ("chatcmpl-" ++ bytes_hex (urandom (i + k))))
         /\ jget ch "created" = Some (JInt (clock (i + k))).
Proof.
  revert i. induction lines as [| line rest IH]; intro i.
  - exists []. split; [reflexivity | intros [| k] ch H; discriminate].
  - cbn [Envelope.gen_loop]. destruct (String.eqb line ""); [apply IH |].
    destruct (bind (loads line) (Envelope.format_chunk m (urandom i) (clock i)))
      as [ch0 | e] eqn:Hb.
    + destruct (IH (S i)) as [chs [Hf Hids]]. exists (ch0 :: chs). cbv zeta.
      cbn [frames]. rewrite Hf. split; [reflexivity |].
      intros [| k] ch Hk; cbn [nth_error] in Hk.
      * injection Hk as <-. rewrite Nat.add_0_r.
        destruct (loads line); cbn [bind] in Hb; [| discriminate].
        exact (format_chunk_id _ _ _ _ _ Hb).
      * replace (i + S k) with (S i + k) by lia. exact (Hids k ch Hk).
    + exists []. split; [reflexivity | intros [| k] ch H; discriminate].
Qed.

Lemma hex_val_digit (d : nat) : d < 16 -> hex_val (hex_digit d) = d.
Proof. intro H. do 16 (destruct d as [| d]; [reflexivity |]). lia. Qed.

Lemma hex_of_nat2_inj (x y : nat) :
  x < 256 -> y < 256 -> hex_of_nat2 x = hex_of_nat2 y -> x = y.
Proof.
  intros Hx Hy H.
  assert (H1 : hex_val (hex_digit (x / 16)) = hex_val (hex_digit (y / 16)))
    by exact (f_equal (fun s => match s with String c _ => hex_val c | _ => 0 end) H).
  assert (H2 : hex_val (hex_digit (x mod 16)) = hex_val (hex_digit (y mod 16)))
    by exact (f_equal (fun s => match s with String _ (String c _) => hex_val c | _ => 0 end) H).
  assert (x / 16 < 16) by (apply Nat.Div0.div_lt_upper_bound; lia).
  assert (y / 16 < 16) by (apply Nat.Div0.div_lt_upper_bound; lia).
  pose proof (Nat.mod_upper_bound x 16 ltac:(lia)).
  pose proof (Nat.mod_upper_bound y 16 ltac:(lia)).
  rewrite !hex_val_digit in H1, H2 by assumption.
  rewrite (Nat.div_mod_eq x 16), (Nat.div_mod_eq y 16), H1, H2. reflexivity.
Qed.

Lemma bytes_hex_inj (a b : list Byte.byte) : bytes_hex a = bytes_hex b -> a = b.
Proof.
  revert b. induction a as [| x a IH]; intros [| y b] H; cbn [bytes_hex] in H;
    [reflexivity | unfold hex_of_nat2 in H; discriminate
    | unfold hex_of_nat2 in H; discriminate |].
  assert (Hh : hex_of_nat2 (Byte.to_nat x) = hex_of_nat2 (Byte.to_nat y))
    by exact (f_equal (fun s => match s with
                                | String c1 (String c2 _) => String c1 (String c2 "")
                                | _ => EmptyString end) H).
  assert (H3 : bytes_hex a = bytes_hex b)
    by exact (f_equal (fun s => match s with String _ (String _ t) => t | _ => EmptyString end) H).
  assert (Hxy : Byte.to_nat x = Byte.to_nat y).
  { apply hex_of_nat2_inj; [| | exact Hh];
      [pose proof (Byte.to_nat_bounded x); lia | pose proof (Byte.to_nat_bounded y); lia]. }
  assert (x = y) as ->.
  { pose proof (Byte.of_to_nat x) as Ex. rewrite Hxy, Byte.of_to_nat in Ex.
    injection Ex as <-. reflexivity. }
  f_equal. exact (IH b H3).
Qed.

Lemma append_inj_l (s a b : string) : s ++ a = s ++ b -> a = b.
Proof.
  induction s as [| c s IH]; cbn [append]; [trivial |].
  intro H. injection H as H. exact (IH H).
Qed.

(** C7 (as stated, refuted).  Ids are not one per request: a streamed
    answer of two backend lines is sent as two chunks with different ids
    (one [os.urandom(12)] draw per chunk). *)
Lemma C7_chunks_of_one_request_have_distinct_ids :
  exists ch1 ch2,
    frames (Envelope.stream_response ab_loads "m" counter_urandom (fun _ => 0%Z)
              {| bs_lines := [ollama_line "a" false; ollama_line "b" true];
                 bs_broken := false |})
    = [Envelope.chunk_frame ch1; Envelope.chunk_frame ch2; done_frame]
    /\ jget ch1 "id" <> jget ch2 "id".
Proof.
  exists (match Envelope.format_chunk "m" (counter_urandom 0) 0%Z
                  (JObj [("response", JStr "a"); ("done", JBool false)])
          with Ok c => c | Err _ => JNull end).
  exists (match Envelope.format_chunk "m" (counter_urandom 1) 0%Z
                  (JObj [("response", JStr "b"); ("done", JBool true)])
          with Ok c => c | Err _ => JNull end).
  split; [vm_compute; reflexivity |].
  vm_compute. intro H. discriminate H.
Qed.

(** C7 (amended).  Every envelope's id is "chatcmpl-" followed by the hex
    of the 12 random bytes drawn for that envelope.  The non-streaming
    completion always has finish_reason "stop" and usage counts -1, -1, -1;
    a streamed chunk has finish_reason "stop" when the backend chunk's
    done flag is truthy and null otherwise, and no usage field.  In a
    streamed answer every chunk is built with its own draw: the [k]-th
    chunk's id is "chatcmpl-" followed by the hex of the [k]-th draw, so
    two chunks of one request whose draws differ carry different ids; the
    frames are the chunks followed by the final "data: [DONE]" when the
    generator ended normally. *)
Theorem C7_envelope_fields :
  (forall m rnd now d v,
     assoc d "response" = Some v ->
     exists env, Envelope.format_response m rnd now (JObj d) = Ok env
       /\ jget env "id" = Some (JStr ("chatcmpl-" ++ bytes_hex rnd))
       /\ finish_reason env = Some (JStr "stop")
       /\ jget env "usage" = Some (JObj [("prompt_tokens", JInt (-1));
                                        ("completion_tokens", JInt (-1));
                                        ("total_tokens", JInt (-1))]))
  /\ (forall m rnd now d,
        exists ch, Envelope.format_chunk m rnd now (JObj d) = Ok ch
          /\ jget ch "id" = Some (JStr ("chatcmpl-" ++ bytes_hex rnd))
          /\ finish_reason ch
             = Some (if truthy (dict_get d "done" (JBool false)) then JStr "stop" else JNull)
          /\ jget ch "usage" = None)
  /\ (forall loads m urandom clock bs,
        exists chs,
          frames (Envelope.stream_response loads m urandom clock bs)
          = app (map Envelope.chunk_frame chs)
                (match raised (Envelope.stream_response loads m urandom clock bs) with
                 | None => [done_frame] | Some _ => [] end)
          /\ (forall k ch, nth_error chs k = Some ch ->
                jget ch "id" = Some (JStr ("chatcmpl-" ++ bytes_hex (urandom k))))
          /\ (forall k k' ch ch', nth_error chs k = Some ch -> nth_error chs k' = Some ch' ->
                urandom k <> urandom k' -> jget ch "id" <> jget ch' "id")).
Proof.
  split; [| split].
  - intros m rnd now d v Hv.
    unfold Envelope.format_response. cbn [py_getitem]. rewrite Hv. cbn [bind].
    eexists. split; [reflexivity |]. repeat split.
  - intros m rnd now d.
    unfold Envelope.format_chunk. rewrite !py_get_obj. cbn [bind].
    eexists. split; [reflexivity |]. repeat split.
  - intros loads m urandom clock bs.
    destruct (gen_loop_ids loads m urandom clock 0 (bs_lines bs)) as [chs [Hf Hids]].
    exists chs. split; [| split].
    + unfold Envelope.stream_response. cbv zeta.
      destruct (raised (Envelope.gen_loop loads m urandom clock 0 (bs_lines bs))) eqn:Hr;
        [| destruct (bs_broken bs)]; cbn [frames raised];
        rewrite ?Hr, Hf; [rewrite app_nil_r | rewrite app_nil_r |]; reflexivity.
    + intros k ch Hk. exact (proj1 (Hids k ch Hk)).
    + intros k k' ch ch' Hk Hk' Hne Heq.
      rewrite (proj1 (Hids k ch Hk)), (proj1 (Hids k' ch' Hk')) in Heq.
      apply (f_equal (fun o => match o with Some (JStr t) => t | _ => EmptyString end)) in Heq.
      cbv beta iota in Heq. apply Hne, bytes_hex_inj, (append_inj_l "chatcmpl-"), Heq.
Qed.

(** ** C10: a backend answer without "response" *)

(** C10.  If the backend's JSON object has no "response" key, the
    non-streaming path raises [KeyError('response')] (no completion is
    returned), while a streamed backend chunk without it is still emitted
    as a chunk frame whose delta content is "". *)
Theorem C10_missing_response_key (m : string) (rnd : list Byte.byte) (now : Z)
    (d : list (string * json)) (Hnone : assoc d "response" = None) :
  Envelope.format_response m rnd now (JObj d) = Err (KeyError "response")
  /\ (forall loads body,
        loads body = Ok (JObj d) ->
        Envelope.normal_response loads m rnd now body = Err (KeyError "response"))
  /\ (forall loads urandom clock i line,
        line <> "" -> loads line = Ok (JObj d) ->
        exists ch, Envelope.format_chunk m (urandom i) (clock i) (JObj d) = Ok ch
          /\ frames (Envelope.gen_loop loads m urandom clock i [line]) = [Envelope.chunk_frame ch]
          /\ delta_content ch = Some (JStr "")).
Proof.
  assert (Hr : Envelope.format_response m rnd now (JObj d) = Err (KeyError "response")).
  { unfold Envelope.format_response. cbn [py_getitem]. rewrite Hnone. reflexivity. }
  split; [exact Hr | split].
  - intros loads body Hb. unfold Envelope.normal_response. rewrite Hb. cbn [bind]. exact Hr.
  - intros loads urandom clock i line Hne Hl.
    assert (Hc : Envelope.format_chunk m (urandom i) (clock i) (JObj d)
                 = Ok (JObj [("id", JStr ("chatcmpl-" ++ bytes_hex (urandom i)));
                             ("object", JStr "chat.completion.chunk");
                             ("created", JInt (clock i));
                             ("model", JStr m);
                             ("choices", JArr [JObj [("index", JInt 0);
                                ("delta", JObj [("content", JStr "")]);
                                ("finish_reason",
                                   if truthy (dict_get d "done" (JBool false))
                                   then JStr "stop" else JNull)]])])).
    { unfold Envelope.format_chunk. rewrite !py_get_obj. cbn [bind].
      unfold dict_get at 1. rewrite Hnone. reflexivity. }
    eexists. split; [exact Hc | split; [| reflexivity]].
    cbn [Envelope.gen_loop]. apply String.eqb_neq in Hne. rewrite Hne.
    rewrite Hl. cbn [bind]. rewrite Hc. reflexivity.
Qed.

Lemma C10_missing_response_key_witness :
  assoc [("done", JBool true)] "response" = None
  /\ Envelope.format_response "m" [] 0%Z (JObj [("done", JBool true)]) = Err (KeyError "response").
Proof.
  split; [reflexivity |].
  apply (C10_missing_response_key "m" [] 0%Z [("done", JBool true)]). reflexivity.
Defined.

(** * Further properties of the code *)

(** ** The collection registry *)

Section RegistryLemmas.
Import CollectionManager.

Lemma find_app_none_r {A} (p : A -> bool) (l : list A) (x : A) :
  p x = false -> find p (app l [x]) = find p l.
Proof.
  intro Hx. induction l as [| y l IH]; simpl; [rewrite Hx; reflexivity |].
  destruct (p y); [reflexivity | exact IH].
Qed.

Lemma find_app_none_l {A} (p : A -> bool) (l : list A) (x : A) :
  find p l = None -> p x = true -> find p (app l [x]) = Some x.
Proof.
  intros Hl Hx. induction l as [| y l IH]; simpl in *; [rewrite Hx; reflexivity |].
  destruct (p y); [discriminate | exact (IH Hl)].
Qed.

Lemma find_filter_neg {A} (p : A -> bool) (l : list A) :
  find p (filter (fun x => negb (p x)) l) = None.
Proof.
  induction l as [| y l IH]; simpl; [reflexivity |].
  destruct (p y) eqn:Hy; simpl; [exact IH | rewrite Hy; exact IH].
Qed.

(** Filtering out one id does not change the lookup of another one. *)
Lemma find_filter_other (l : list row) (id other : string) :
  other <> id ->
  find (same_id other) (filter (fun r => negb (same_id id r)) l) = find (same_id other) l.
Proof.
  intro Hne. induction l as [| r l IH]; simpl; [reflexivity |].
  destruct (same_id id r) eqn:Hid; simpl.
  - unfold same_id in *. apply String.eqb_eq in Hid.
    destruct (String.eqb (row_id r) other) eqn:Ho; [| exact IH].
    apply String.eqb_eq in Ho. congruence.
  - destruct (same_id other r); [reflexivity | exact IH].
Qed.

Lemma same_id_true (r : row) (id : string) : same_id id r = true <-> row_id r = id.
Proof. unfold same_id. apply String.eqb_eq. Qed.

Lemma NoDup_snoc {A} (l : list A) (x : A) : NoDup l -> ~ In x l -> NoDup (app l [x]).
Proof.
  intros Hl Hx. apply NoDup_app; [exact Hl | constructor; [intros [] | constructor] |].
  intros a Ha [<- | []]. exact (Hx Ha).
Qed.

Lemma ids_filter_NoDup (keep : row -> bool) (rows : list row) :
  NoDup (map row_id rows) -> NoDup (map row_id (filter keep rows)).
Proof.
  induction rows as [| r rows IH]; cbn [map filter]; intro Hnd; [constructor |].
  inversion Hnd as [| r_id ids Hnin Hrest]; subst.
  destruct (keep r); cbn [map]; [| exact (IH Hrest)].
  constructor; [| exact (IH Hrest)].
  intro Hin. apply Hnin. apply in_map_iff in Hin as [r' [Hr' Hin]].
  apply filter_In in Hin as [Hin _]. apply in_map_iff. exists r'. split; assumption.
Qed.

Lemma in_ids_filter (l : list row) (id : string) :
  ~ In id (map row_id (filter (fun r => negb (same_id id r)) l)).
Proof.
  intro Hin. apply in_map_iff in Hin as [r [Hr Hin]].
  apply filter_In in Hin as [_ Hneg]. unfold same_id in Hneg.
  rewrite Hr, String.eqb_refl in Hneg. discriminate.
Qed.

End RegistryLemmas.

(** X1.  [add_collection] then [get_collection_info] of the same id gives
    back the row just written (name, file name and a fresh [created_at],
    also when the id was already registered), and leaves every other id's
    row as it was. *)
Theorem cm_add_then_get (rows : list CollectionManager.row)
    (id name file_name now : string) :
  exists d', CollectionManager.add_collection (Some rows) id name file_name now = Some d'
    /\ CollectionManager.get_collection_info d' id
       = Some (Some (CollectionManager.row_dict
                       {| CollectionManager.row_id := id; CollectionManager.row_name := name;
                          CollectionManager.row_file_name := file_name;
                          CollectionManager.row_created_at := now |}))
    /\ (forall other, other <> id ->
          CollectionManager.get_collection_info d' other
          = CollectionManager.get_collection_info (Some rows) other).
Proof.
  eexists. split; [reflexivity |]. cbn [CollectionManager.get_collection_info].
  split.
  - rewrite find_app_none_l; [reflexivity | apply find_filter_neg |].
    apply same_id_true. reflexivity.
  - intros other Hne. rewrite find_app_none_r.
    + rewrite find_filter_other by exact Hne. reflexivity.
    + unfold CollectionManager.same_id. simpl. apply String.eqb_neq. congruence.
Qed.

(** X2.  The ids of the registry stay pairwise distinct: the table starts
    empty after [init_db], and [add_collection], [delete_collection] and
    [update_collection_name] keep the ids of a table with distinct ids
    distinct. *)
Theorem cm_ids_stay_unique (rows : list CollectionManager.row)
    (Hnd : NoDup (map CollectionManager.row_id rows)) :
  CollectionManager.init_db None = Some []
  /\ (forall id name file_name now rows',
        CollectionManager.add_collection (Some rows) id name file_name now = Some (Some rows') ->
        NoDup (map CollectionManager.row_id rows'))
  /\ (forall id rows',
        CollectionManager.delete_collection (Some rows) id = Some (Some rows') ->
        NoDup (map CollectionManager.row_id rows'))
  /\ (forall id new_name rows',
        CollectionManager.update_collection_name (Some rows) id new_name = Some (Some rows') ->
        NoDup (map CollectionManager.row_id rows')).
Proof.
  split; [reflexivity | split; [| split]].
  - intros id name file_name now rows' H. injection H as <-.
    rewrite map_app. simpl. apply NoDup_snoc.
    + apply ids_filter_NoDup. exact Hnd.
    + apply in_ids_filter.
  - intros id rows' H. injection H as <-. apply ids_filter_NoDup. exact Hnd.
  - intros id new_name rows' H. injection H as <-. rewrite map_map.
    replace (map (fun x => CollectionManager.row_id
                   (if CollectionManager.same_id id x then _ else x)) rows)
      with (map CollectionManager.row_id rows); [exact Hnd |].
    apply map_ext. intro r. destruct (CollectionManager.same_id id r); reflexivity.
Qed.

Lemma cm_ids_stay_unique_witness :
  NoDup (map CollectionManager.row_id [one_row])
  /\ (exists rows', CollectionManager.add_collection (Some [one_row]) "B" "b" "b.pdf" "t2"
                    = Some (Some rows') /\ NoDup (map CollectionManager.row_id rows'))
  /\ (exists rows', CollectionManager.delete_collection (Some [one_row]) "A" = Some (Some rows')
                    /\ NoDup (map CollectionManager.row_id rows'))
  /\ (exists rows', CollectionManager.update_collection_name (Some [one_row]) "A" "z"
                    = Some (Some rows') /\ NoDup (map CollectionManager.row_id rows')).
Proof.
  assert (Hnd : NoDup (map CollectionManager.row_id [one_row]))
    by (constructor; [intros [] | constructor]).
  destruct (cm_ids_stay_unique [one_row] Hnd) as [_ [Hadd [Hdel Hupd]]].
  split; [exact Hnd |]. split; [| split].
  - eexists. split; [reflexivity |]. apply (Hadd "B" "b" "b.pdf" "t2"). reflexivity.
  - eexists. split; [reflexivity |]. apply (Hdel "A"). reflexivity.
  - eexists. split; [reflexivity |]. apply (Hupd "A" "z"). reflexivity.
Defined.

Section RegistryLemmas2.
Import CollectionManager.

Lemma same_id_rename (id new_name other : string) (r : row) :
  same_id other (rename id new_name r) = same_id other r.
Proof. unfold rename. destruct (same_id id r); reflexivity. Qed.

Lemma find_map_rename (rows : list row) (id new_name other : string) :
  find (same_id other) (map (rename id new_name) rows)
  = option_map (rename id new_name) (find (same_id other) rows).
Proof.
  induction rows as [| r rows IH]; simpl; [reflexivity |].
  rewrite same_id_rename. destruct (same_id other r); [reflexivity | exact IH].
Qed.

Lemma rename_other (id new_name : string) (r : row) :
  row_id r <> id -> rename id new_name r = r.
Proof.
  intro H. unfold rename, same_id. destruct (String.eqb (row_id r) id) eqn:E; [| reflexivity].
  apply String.eqb_eq in E. contradiction.
Qed.

Lemma filter_keep_all {A} (p : A -> bool) (l : list A) :
  (forall x, In x l -> p x = true) -> filter p l = l.
Proof.
  induction l as [| x l IH]; simpl; intro H; [reflexivity |].
  rewrite (H x (or_introl eq_refl)). f_equal. apply IH. intros y Hy. apply H. now right.
Qed.

End RegistryLemmas2.

(** X3.  After [delete_collection] the id is gone: [get_collection_info]
    returns None for it and it is no longer among the ids, while every other
    id is looked up as before; deleting an id that is not registered leaves
    the table unchanged. *)
Theorem cm_delete_removes_only_id (rows : list CollectionManager.row) (id : string) :
  exists rows', CollectionManager.delete_collection (Some rows) id = Some (Some rows')
    /\ CollectionManager.get_collection_info (Some rows') id = Some None
    /\ ~ In id (map CollectionManager.row_id rows')
    /\ (forall other, other <> id ->
          CollectionManager.get_collection_info (Some rows') other
          = CollectionManager.get_collection_info (Some rows) other)
    /\ (~ In id (map CollectionManager.row_id rows) -> rows' = rows).
Proof.
  eexists. split; [reflexivity |]. cbn [CollectionManager.get_collection_info].
  split; [rewrite find_filter_neg; reflexivity |].
  split; [apply in_ids_filter |].
  split.
  - intros other Hne. rewrite find_filter_other by exact Hne. reflexivity.
  - intro Hnin. apply filter_keep_all. intros r Hr.
    destruct (CollectionManager.same_id id r) eqn:E; [| reflexivity].
    apply same_id_true in E. exfalso. apply Hnin. apply in_map_iff. eauto.
Qed.

(** X4.  [update_collection_name] changes only the name: looking the id up
    afterwards gives the row found before with the new name and its own
    file name and creation time, None stays None (no row is created for an
    unknown id), and every other id is looked up as before. *)
Theorem cm_update_changes_only_name (rows : list CollectionManager.row)
    (id new_name : string) :
  exists rows', CollectionManager.update_collection_name (Some rows) id new_name = Some (Some rows')
    /\ CollectionManager.get_collection_info (Some rows') id
       = Some (match find (CollectionManager.same_id id) rows with
               | Some r => Some (CollectionManager.row_dict
                    {| CollectionManager.row_id := id;
                       CollectionManager.row_name := new_name;
                       CollectionManager.row_file_name := CollectionManager.row_file_name r;
                       CollectionManager.row_created_at := CollectionManager.row_created_at r |})
               | None => None
               end)
    /\ map CollectionManager.row_id rows' = map CollectionManager.row_id rows
    /\ (forall other, other <> id ->
          CollectionManager.get_collection_info (Some rows') other
          = CollectionManager.get_collection_info (Some rows) other).
Proof.
  exists (map (rename id new_name) rows). split; [reflexivity |].
  cbn [CollectionManager.get_collection_info].
  split; [| split].
  - rewrite find_map_rename.
    destruct (find (CollectionManager.same_id id) rows) as [r |] eqn:E; [| reflexivity].
    apply find_some in E as [_ E]. cbn [option_map]. unfold rename. rewrite E.
    apply same_id_true in E. rewrite E. reflexivity.
  - rewrite map_map. apply map_ext. intro r. unfold rename.
    destruct (CollectionManager.same_id id r); reflexivity.
  - intros other Hne. rewrite find_map_rename.
    destruct (find (CollectionManager.same_id other) rows) as [r |] eqn:E; [| reflexivity].
    apply find_some in E as [_ E]. apply same_id_true in E. cbn [option_map].
    rewrite rename_other by congruence. reflexivity.
Qed.

(** ** Retrieval over the registry *)

Lemma rag_loop_ext (st st' : store) (q : json) (cols acc : list string) :
  (forall c, In c cols -> store_topk st' c q 2 = store_topk st c q 2) ->
  rag_loop st' q cols acc = rag_loop st q cols acc.
Proof.
  revert acc. induction cols as [| c rest IH]; intros acc H; [reflexivity |].
  cbn [rag_loop]. rewrite (H c (or_introl eq_refl)).
  destruct (store_topk st c q 2); cbn [bind]; [| reflexivity].
  apply IH. intros c' Hc'. apply H. now right.
Qed.

(** X5.  [get_rag_context] asks the vector store only about the collections
    registered in the table, each with [k=2]: two lookups that agree there
    give the same context (or the same error), whatever they do for any
    other collection name or any other [k]. *)
Theorem rag_queries_registered_collections_only (rows : list CollectionManager.row)
    (topk topk' : string -> json -> nat -> result (list string)) (q : json)
    (Hagree : forall c, In c (map CollectionManager.row_id rows) -> topk' c q 2 = topk c q 2) :
  get_rag_context (CollectionManager.store_of rows topk') q
  = get_rag_context (CollectionManager.store_of rows topk) q.
Proof.
  unfold get_rag_context, CollectionManager.store_of. cbn [get_all_collections].
  rewrite (rag_loop_ext (Build_store (map CollectionManager.row_id rows) topk)); [reflexivity |].
  exact Hagree.
Qed.

Lemma rag_queries_registered_collections_only_witness :
  (forall c, In c (map CollectionManager.row_id [one_row]) ->
     topk_other c (JStr "q") 2 = topk_const ["x"] c (JStr "q") 2)
  /\ topk_other "B" (JStr "q") 2 <> topk_const ["x"] "B" (JStr "q") 2
  /\ get_rag_context (CollectionManager.store_of [one_row] topk_other) (JStr "q")
     = get_rag_context (CollectionManager.store_of [one_row] (topk_const ["x"])) (JStr "q").
Proof.
  assert (Hagree : forall c, In c (map CollectionManager.row_id [one_row]) ->
                     topk_other c (JStr "q") 2 = topk_const ["x"] c (JStr "q") 2)
    by (intros c [<- | []]; reflexivity).
  split; [exact Hagree | split; [discriminate |]].
  exact (rag_queries_registered_collections_only [one_row] (topk_const ["x"]) topk_other
           (JStr "q") Hagree).
Defined.

(** X6.  After [delete_collection] the deleted collection no longer feeds
    the retrieval context: whatever the vector store still holds (or fails
    with) under that id, [get_rag_context] over the table gives the same
    result. *)
Theorem rag_ignores_deleted_collection (rows rows' : list CollectionManager.row) (id : string)
    (topk topk' : string -> json -> nat -> result (list string)) (q : json)
    (Hdel : CollectionManager.delete_collection (Some rows) id = Some (Some rows'))
    (Hother : forall c, c <> id -> topk' c q 2 = topk c q 2) :
  get_rag_context (CollectionManager.store_of rows' topk') q
  = get_rag_context (CollectionManager.store_of rows' topk) q.
Proof.
  unfold get_rag_context, CollectionManager.store_of. cbn [get_all_collections].
  rewrite (rag_loop_ext (Build_store (map CollectionManager.row_id rows') topk)); [reflexivity |].
  intros c Hc. cbn [store_topk]. apply Hother. intros ->.
  cbn [CollectionManager.delete_collection] in Hdel. injection Hdel as <-.
  exact (in_ids_filter rows id Hc).
Qed.

Lemma rag_ignores_deleted_collection_witness :
  CollectionManager.delete_collection (Some [one_row]) "A" = Some (Some [])
  /\ get_rag_context (CollectionManager.store_of [] (topk_const ["x"])) (JStr "q")
     = get_rag_context (CollectionManager.store_of [] (fun _ _ _ => Err (StoreError "no collection")))
         (JStr "q").
Proof.
  split; [reflexivity |].
  apply (rag_ignores_deleted_collection [one_row] [] "A"); [reflexivity |].
  intros c Hc. unfold topk_const.
  destruct (String.eqb c "A") eqn:E; [apply String.eqb_eq in E; contradiction | reflexivity].
Defined.

(** ** Request normalisation *)

(** X7.  The search for the retrieval query reads messages only up to the
    first user message: leading messages whose role is not "user" are
    skipped, the first user message yields its "content" whatever follows
    it (later messages are never looked at), and a leading dict message
    without "role" raises [KeyError('role')]. *)
Theorem first_user_content_reads_prefix_only (pre rest : list json)
    (Hpre : Forall (fun m => exists r, py_getitem m "role" = Ok r
                                    /\ json_eqb r (JStr "user") = false) pre) :
  first_user_content (app pre rest) = first_user_content rest
  /\ (forall m rest', py_getitem m "role" = Ok (JStr "user") ->
        first_user_content (app pre (m :: rest')) = py_getitem m "content")
  /\ (forall d rest', assoc d "role" = None ->
        first_user_content (app pre (JObj d :: rest')) = Err (KeyError "role")).
Proof.
  assert (Hskip : forall l, first_user_content (app pre l) = first_user_content l).
  { induction Hpre as [| m pre' [r [Hr Hne]] _ IH]; intro l; [reflexivity |].
    cbn [app first_user_content]. rewrite Hr. cbn [bind]. rewrite Hne. apply IH. }
  split; [apply Hskip | split].
  - intros m rest' Hm. rewrite Hskip. cbn [first_user_content]. rewrite Hm. reflexivity.
  - intros d rest' Hd. rewrite Hskip. cbn [first_user_content py_getitem]. rewrite Hd.
    reflexivity.
Qed.

Lemma first_user_content_reads_prefix_only_witness :
  Forall (fun m => exists r, py_getitem m "role" = Ok r
                          /\ json_eqb r (JStr "user") = false) [mkmsg "system" "s"]
  /\ first_user_content (app [mkmsg "system" "s"] [mkmsg "user" "u"])
     = first_user_content [mkmsg "user" "u"].
Proof.
  assert (H : Forall (fun m => exists r, py_getitem m "role" = Ok r
                        /\ json_eqb r (JStr "user") = false) [mkmsg "system" "s"]).
  { constructor; [exists (JStr "system"); split; reflexivity | constructor]. }
  split; [exact H |].
  exact (proj1 (first_user_content_reads_prefix_only [mkmsg "system" "s"] [mkmsg "user" "u"] H)).
Defined.

Lemma first_user_content_skip (pre l : list json) :
  Forall (fun msg => exists r c, py_getitem msg "role" = Ok r
            /\ json_eqb r (JStr "user") = false /\ py_getitem msg "content" = Ok c) pre ->
  first_user_content (pre ++ l) = first_user_content l.
Proof.
  induction 1 as [| msg pre [r [c [Hr [Hu _]]]] _ IH]; [reflexivity |].
  cbn [app first_user_content]. rewrite Hr. cbn [bind]. rewrite Hu. exact IH.
Qed.

Lemma render_lines_skip_err (pre l : list json) (e : py_error) :
  Forall (fun msg => exists r c, py_getitem msg "role" = Ok r
            /\ json_eqb r (JStr "user") = false /\ py_getitem msg "content" = Ok c) pre ->
  render_lines l = Err e -> render_lines (pre ++ l) = Err e.
Proof.
  intros Hpre Hl. induction Hpre as [| msg pre [r [c [Hr [_ Hc]]]] _ IH]; [exact Hl |].
  cbn [app render_lines]. rewrite Hr. cbn [bind]. rewrite Hc. cbn [bind].
  rewrite IH. reflexivity.
Qed.

(** X8.  When the messages before the first one without "role" all have a
    role other than "user" and a content, both retrieval gateways and the
    translating gateway without retrieval raise [KeyError('role')] (a 500,
    no backend request), while the passthrough gateway without retrieval
    builds its backend request with the messages forwarded unchanged. *)
Theorem message_without_role (m : string) (st : store) (dd : list (string * json))
    (pre : list json) (d : list (string * json)) (rest : list json)
    (Hm : dict_get dd "messages" (JArr []) = JArr (pre ++ JObj d :: rest))
    (Hpre : Forall (fun msg => exists r c, py_getitem msg "role" = Ok r
              /\ json_eqb r (JStr "user") = false /\ py_getitem msg "content" = Ok c) pre)
    (Hd : assoc d "role" = None) :
  Groq.chat_completions m st (JObj dd) = Err (KeyError "role")
  /\ Ollama.chat_completions m st (JObj dd) = Err (KeyError "role")
  /\ MiniOllama.chat_completions m (JObj dd) = Err (KeyError "role")
  /\ exists c, MiniGroq.chat_completions m (JObj dd) = Ok c
       /\ jget (call_payload c) "messages" = Some (JArr (pre ++ JObj d :: rest)).
Proof.
  assert (Hr : render_lines (pre ++ JObj d :: rest) = Err (KeyError "role")).
  { apply render_lines_skip_err; [exact Hpre |].
    cbn [render_lines py_getitem]. rewrite Hd. reflexivity. }
  unfold Groq.chat_completions, Ollama.chat_completions, MiniOllama.chat_completions,
    MiniGroq.chat_completions, flatten_prompt.
  rewrite !py_get_obj, Hm. cbn [bind py_iter].
  rewrite (first_user_content_skip _ _ Hpre), Hr.
  cbn [first_user_content py_getitem]. rewrite Hd. cbn [bind].
  split; [reflexivity | split; [reflexivity | split; [reflexivity |]]].
  destruct (add_params_ok dd Groq.sampling_params
              [("model", JStr m); ("messages", JArr (pre ++ JObj d :: rest));
               ("stream", dict_get dd "stream" (JBool false))]) as [res [Hres Hk]].
  rewrite Hres. cbn [bind]. eexists. split; [reflexivity |].
  cbn [call_payload jget]. rewrite Hk. reflexivity.
Qed.

Lemma message_without_role_witness :
  dict_get x8_body "messages" (JArr [])
    = JArr ([mkmsg "assistant" "x"] ++ JObj [("content", JStr "y")] :: [mkmsg "user" "q"])
  /\ MiniOllama.chat_completions "m" (JObj x8_body) = Err (KeyError "role").
Proof.
  split; [reflexivity |].
  refine (proj1 (proj2 (proj2 (message_without_role "m" empty_store x8_body
            [mkmsg "assistant" "x"] [("content", JStr "y")] [mkmsg "user" "q"]
            eq_refl _ eq_refl)))).
  constructor; [| constructor].
  exists (JStr "assistant"), (JStr "x"). repeat split.
Defined.

Lemma finite_assoc_false (d : list (string * json)) (k : string) (v : json) :
  assoc d k = Some v -> json_finite v = false -> json_finite (JObj d) = false.
Proof.
  intros Hk Hv. destruct (json_finite (JObj d)) eqn:E; [| reflexivity].
  apply json_finite_obj in E. exfalso.
  induction E as [| [k' v'] d Hv' _ IH]; cbn [assoc] in Hk; [discriminate |].
  destruct (String.eqb k k'); [injection Hk as <-; cbn [snd] in Hv'; congruence | exact (IH Hk)].
Qed.

(** X9.  On a JSON object body the passthrough gateway without retrieval
    always builds its backend request, whose payload holds the model, the
    body's "messages" value as it is (a list or not, [[]] when absent), the
    "stream" value ([false] when absent), the whitelisted sampling
    parameters the body has, and nothing else.  The request is sent (one
    backend call) when the body holds no NaN or infinite number; when a
    whitelisted sampling parameter is NaN or infinite, [requests] refuses
    to serialise the payload: no backend call, and a 500.  A body that is
    not an object raises [AttributeError] at [data.get]. *)
Theorem minigroq_forwards_body (m : string) (dd : list (string * json)) :
  (exists pm,
     MiniGroq.chat_completions m (JObj dd)
     = Ok {| call_stream := dict_get dd "stream" (JBool false); call_payload := JObj pm |}
     /\ assoc pm "model" = Some (JStr m)
     /\ assoc pm "messages" = Some (dict_get dd "messages" (JArr []))
     /\ assoc pm "stream" = Some (dict_get dd "stream" (JBool false))
     /\ (forall p, In p Groq.sampling_params -> assoc pm p = assoc dd p)
     /\ (forall k, ~ In k ["model"; "messages"; "stream"] -> ~ In k Groq.sampling_params ->
           assoc pm k = None))
  /\ (json_finite (JObj dd) = true -> backend_calls (MiniGroq.chat_completions m (JObj dd)) = 1)
  /\ (forall p r, In p Groq.sampling_params -> assoc dd p = Some (JFloat r) ->
        float_finite r = false ->
        backend_calls (MiniGroq.chat_completions m (JObj dd)) = 0
        /\ http_status (MiniGroq.chat_completions m (JObj dd)) = 500%Z)
  /\ (forall j, (forall d, j <> JObj d) ->
        MiniGroq.chat_completions m j = Err (AttributeError "get")).
Proof.
  destruct (add_params_ok dd Groq.sampling_params
              [("model", JStr m); ("messages", dict_get dd "messages" (JArr []));
               ("stream", dict_get dd "stream" (JBool false))]) as [pm [Hrun Hpm]].
  assert (Hc : MiniGroq.chat_completions m (JObj dd)
               = Ok {| call_stream := dict_get dd "stream" (JBool false);
                       call_payload := JObj pm |}).
  { unfold MiniGroq.chat_completions. rewrite !py_get_obj. cbn [bind]. rewrite Hrun.
    reflexivity. }
  assert (Hsp : forall p, In p Groq.sampling_params -> assoc pm p = assoc dd p).
  { intros p Hp. rewrite Hpm.
    replace (existsb (String.eqb p) Groq.sampling_params) with true.
    - destruct (assoc dd p) eqn:E; [reflexivity |].
      simpl in Hp. cbn [assoc].
      repeat destruct Hp as [<- | Hp]; try reflexivity. destruct Hp.
    - symmetry. apply existsb_exists. exists p. split; [exact Hp | apply String.eqb_refl]. }
  split; [| split; [| split]].
  - exists pm. split; [exact Hc |].
    split; [| split; [| split; [| split]]].
    + rewrite Hpm. reflexivity.
    + rewrite Hpm. reflexivity.
    + rewrite Hpm. reflexivity.
    + exact Hsp.
    + intros k Hk Hs. rewrite Hpm. apply not_sampling_param in Hs. rewrite Hs.
      cbn [assoc]. cbn [In] in Hk.
      destruct (String.eqb k "model") eqn:E1; [apply String.eqb_eq in E1; subst k; exfalso; apply Hk; auto |].
      destruct (String.eqb k "messages") eqn:E2; [apply String.eqb_eq in E2; subst k; exfalso; apply Hk; auto |].
      destruct (String.eqb k "stream") eqn:E3; [apply String.eqb_eq in E3; subst k; exfalso; apply Hk; auto |].
      reflexivity.
  - intro Hfin. rewrite Hc. apply backend_calls_finite. cbn [call_payload].
    refine (finite_add_params dd Groq.sampling_params _ pm Hfin _ Hrun).
    repeat (constructor || (apply finite_dict_get; [exact Hfin | reflexivity])).
  - intros p r Hp Hr Hnf. rewrite Hc. unfold backend_calls, http_status, post_payload.
    cbn [call_payload].
    rewrite (finite_assoc_false pm p (JFloat r)); [split; reflexivity | | exact Hnf].
    rewrite (Hsp p Hp). exact Hr.
  - intros j Hj. destruct j; try reflexivity. exfalso. exact (Hj l eq_refl).
Qed.

(** ** The gateways with and without retrieval *)

(** X10.  When the conversation is a list, its query is found and retrieval
    succeeds, the passthrough gateway with retrieval sends the payload of
    the one without retrieval, with only "messages" changed: the context
    system message is put in front of the client's messages. *)
Theorem groq_adds_only_system_message (m : string) (st : store) (dd : list (string * json))
    (l : list json) (q : json) (ctx : string)
    (Hm : dict_get dd "messages" (JArr []) = JArr l)
    (Hq : first_user_content l = Ok q) (Hctx : get_rag_context st q = Ok ctx) :
  exists pm pg,
    MiniGroq.chat_completions m (JObj dd)
    = Ok {| call_stream := dict_get dd "stream" (JBool false); call_payload := JObj pm |}
    /\ Groq.chat_completions m st (JObj dd)
    = Ok {| call_stream := dict_get dd "stream" (JBool false); call_payload := JObj pg |}
    /\ forall k, assoc pg k = if String.eqb k "messages"
                               then Some (JArr (system_message ctx :: l))
                               else assoc pm k.
Proof.
  unfold MiniGroq.chat_completions, Groq.chat_completions.
  rewrite !py_get_obj, Hm. cbn [bind py_iter]. rewrite Hq. cbn [bind]. rewrite Hctx.
  cbn [bind].
  destruct (add_params_ok dd Groq.sampling_params
              [("model", JStr m); ("messages", JArr l);
               ("stream", dict_get dd "stream" (JBool false))]) as [pm [Hrm Hpm]].
  destruct (add_params_ok dd Groq.sampling_params
              [("model", JStr m); ("messages", JArr (system_message ctx :: l));
               ("stream", dict_get dd "stream" (JBool false))]) as [pg [Hrg Hpg]].
  rewrite Hrm, Hrg. exists pm, pg. split; [reflexivity | split; [reflexivity |]].
  intro k. rewrite Hpm, Hpg.
  destruct (String.eqb k "messages") eqn:E.
  - apply String.eqb_eq in E. subst k. reflexivity.
  - destruct (existsb (String.eqb k) Groq.sampling_params);
      [destruct (assoc dd k); [reflexivity |] |]; cbn [assoc]; rewrite E; reflexivity.
Qed.

Lemma groq_adds_only_system_message_witness :
  dict_get [("messages", JArr (mkmsgs [("user", "hi")]))] "messages" (JArr [])
    = JArr (mkmsgs [("user", "hi")])
  /\ first_user_content (mkmsgs [("user", "hi")]) = Ok (JStr "hi")
  /\ get_rag_context echo_store (JStr "hi") = Ok "hi"
  /\ exists pm pg,
    MiniGroq.chat_completions "m" (JObj [("messages", JArr (mkmsgs [("user", "hi")]))])
    = Ok {| call_stream := JBool false; call_payload := JObj pm |}
    /\ Groq.chat_completions "m" echo_store (JObj [("messages", JArr (mkmsgs [("user", "hi")]))])
    = Ok {| call_stream := JBool false; call_payload := JObj pg |}
    /\ forall k, assoc pg k = if String.eqb k "messages"
                               then Some (JArr (system_message "hi" :: mkmsgs [("user", "hi")]))
                               else assoc pm k.
Proof.
  split; [reflexivity | split; [reflexivity | split; [reflexivity |]]].
  apply (groq_adds_only_system_message "m" echo_store
           [("messages", JArr (mkmsgs [("user", "hi")]))] (mkmsgs [("user", "hi")])
           (JStr "hi")); reflexivity.
Defined.

Lemma render_lines_system (ctx : string) (l : list json) :
  render_lines (system_message ctx :: l)
  = match render_lines l with
    | Ok lines => Ok (system_line ctx :: lines)
    | Err e => Err e
    end.
Proof.
  cbn [render_lines system_message py_getitem assoc]. cbn [String.eqb Ascii.eqb Bool.eqb bind].
  destruct (render_lines l); reflexivity.
Qed.

(** X11.  Under the same conditions the translating gateway with retrieval
    sends the prompt of the one without retrieval with the line
    "system: <context preamble><context>" in front; a message that cannot
    be rendered makes both raise the same error. *)
Theorem ollama_prompt_is_mini_prompt_with_system_line (m : string) (st : store)
    (dd : list (string * json)) (l : list json) (q : json) (ctx : string)
    (Hm : dict_get dd "messages" (JArr []) = JArr l)
    (Hq : first_user_content l = Ok q) (Hctx : get_rag_context st q = Ok ctx) :
  match render_lines l with
  | Ok lines =>
      MiniOllama.chat_completions m (JObj dd)
      = Ok {| call_stream := dict_get dd "stream" (JBool false);
              call_payload := JObj [("model", JStr m); ("prompt", JStr (py_join nl lines));
                                    ("stream", dict_get dd "stream" (JBool false))] |}
      /\ Ollama.chat_completions m st (JObj dd)
      = Ok {| call_stream := dict_get dd "stream" (JBool false);
              call_payload := JObj [("model", JStr m);
                                    ("prompt", JStr (py_join nl (system_line ctx :: lines)));
                                    ("stream", dict_get dd "stream" (JBool false))] |}
  | Err e =>
      MiniOllama.chat_completions m (JObj dd) = Err e
      /\ Ollama.chat_completions m st (JObj dd) = Err e
  end.
Proof.
  unfold MiniOllama.chat_completions, Ollama.chat_completions, flatten_prompt.
  rewrite !py_get_obj, Hm. cbn [bind py_iter].
  rewrite Hq. cbn [bind]. rewrite Hctx. cbn [bind Ollama.prepend_system].
  rewrite render_lines_system.
  destruct (render_lines l); split; reflexivity.
Qed.

Lemma ollama_prompt_is_mini_prompt_with_system_line_witness :
  dict_get [("messages", JArr (mkmsgs [("user", "hi")]))] "messages" (JArr [])
    = JArr (mkmsgs [("user", "hi")])
  /\ Ollama.chat_completions "m" echo_store (JObj [("messages", JArr (mkmsgs [("user", "hi")]))])
     = Ok {| call_stream := JBool false;
             call_payload := JObj [("model", JStr "m");
                                   ("prompt", JStr (py_join nl [system_line "hi"; "user: hi"]));
                                   ("stream", JBool false)] |}.
Proof.
  split; [reflexivity |].
  exact (proj2 (ollama_prompt_is_mini_prompt_with_system_line "m" echo_store
           [("messages", JArr (mkmsgs [("user", "hi")]))] (mkmsgs [("user", "hi")])
           (JStr "hi") "hi" eq_refl eq_refl eq_refl)).
Defined.

(** ** Streaming through the translating gateways *)

Lemma format_chunk_fields (m : string) (rnd : list Byte.byte) (now : Z) (j ch : json) :
  Envelope.format_chunk m rnd now j = Ok ch ->
  exists d, j = JObj d
    /\ delta_content ch = Some (dict_get d "response" (JStr ""))
    /\ finish_reason ch
       = Some (if truthy (dict_get d "done" (JBool false)) then JStr "stop" else JNull).
Proof.
  destruct j as [| | | | | | d]; try discriminate.
  unfold Envelope.format_chunk. rewrite !py_get_obj. cbn [bind]. intro H.
  injection H as <-. exists d. split; [reflexivity |]. split; reflexivity.
Qed.

Lemma gen_loop_ok (loads : string -> result json) (m : string)
    (urandom : nat -> list Byte.byte) (clock : nat -> Z) (i : nat) (lines : list string) :
  raised (Envelope.gen_loop loads m urandom clock i lines) = None ->
  exists chs, frames (Envelope.gen_loop loads m urandom clock i lines)
              = map Envelope.chunk_frame chs
    /\ Forall2 (chunk_of_line loads) (nonempty_lines lines) chs.
Proof.
  revert i. induction lines as [| line rest IH]; intros i Hr.
  - exists []. split; constructor.
  - cbn [Envelope.gen_loop nonempty_lines filter] in *.
    destruct (String.eqb line "") eqn:He; cbn [negb].
    + exact (IH i Hr).
    + destruct (loads line) as [j | e] eqn:Hl; cbn [bind] in *; [| discriminate].
      destruct (Envelope.format_chunk m (urandom i) (clock i) j) as [ch | e] eqn:Hf;
        cbn [frames raised] in *; [| discriminate].
      destruct (IH (S i) Hr) as [chs [Hfr Hall]].
      exists (ch :: chs). split; [rewrite Hfr; reflexivity |].
      constructor; [| exact Hall].
      destruct (format_chunk_fields _ _ _ _ _ Hf) as [d [-> Hd]].
      exists d. split; [exact Hl | exact Hd].
Qed.

Lemma gen_loop_err (loads : string -> result json) (m : string)
    (urandom : nat -> list Byte.byte) (clock : nat -> Z) (i : nat) (lines : list string)
    (line : string) (e : py_error) :
  In line lines -> line <> "" -> loads line = Err e ->
  exists e', raised (Envelope.gen_loop loads m urandom clock i lines) = Some e'.
Proof.
  revert i. induction lines as [| l0 rest IH]; intros i Hin Hne Hl; [destruct Hin |].
  cbn [Envelope.gen_loop]. destruct (String.eqb l0 "") eqn:He.
  - destruct Hin as [-> | Hin]; [apply String.eqb_eq in He; contradiction |].
    exact (IH i Hin Hne Hl).
  - destruct (bind (loads l0) (Envelope.format_chunk m (urandom i) (clock i))) as [ch | e0]
      eqn:Hb; [| eexists; reflexivity].
    cbn [raised]. destruct Hin as [-> | Hin]; [rewrite Hl in Hb; discriminate |].
    exact (IH (S i) Hin Hne Hl).
Qed.

(** X12.  When the translating gateway's stream ends normally, it has sent
    exactly one chunk per non-empty backend line, in order, then the
    sentinel: the chunk of a line that parses to a dict [d] carries
    [d.get("response", "")] as its delta content and "stop" as finish
    reason exactly when [d.get("done", False)] is truthy.  A non-empty line
    the backend sends that does not parse makes the stream end with an
    exception. *)
Theorem envelope_stream_one_chunk_per_line (loads : string -> result json) (m : string)
    (urandom : nat -> list Byte.byte) (clock : nat -> Z) (bs : backend_stream) :
  (raised (Envelope.stream_response loads m urandom clock bs) = None ->
   exists chs, frames (Envelope.stream_response loads m urandom clock bs)
               = app (map Envelope.chunk_frame chs) [done_frame]
     /\ Forall2 (chunk_of_line loads) (nonempty_lines (bs_lines bs)) chs)
  /\ (forall line e, In line (bs_lines bs) -> line <> "" -> loads line = Err e ->
        exists e', raised (Envelope.stream_response loads m urandom clock bs) = Some e').
Proof.
  unfold Envelope.stream_response. cbv zeta. split.
  - destruct (raised (Envelope.gen_loop loads m urandom clock 0 (bs_lines bs))) eqn:E;
      [intro H; rewrite E in H; discriminate |].
    destruct (bs_broken bs); cbn [raised]; [discriminate |]. intros _. cbn [frames].
    destruct (gen_loop_ok loads m urandom clock 0 (bs_lines bs) E) as [chs [Hf Hall]].
    exists chs. rewrite Hf. split; [reflexivity | exact Hall].
  - intros line e Hin Hne Hl.
    destruct (gen_loop_err loads m urandom clock 0 (bs_lines bs) line e Hin Hne Hl) as [e' He'].
    rewrite He'. exists e'. exact He'.
Qed.

(** ** The framing of server-sent events *)

Section Printable.

Lemma all_printable_app (a b : string) :
  all_printable (a ++ b) = all_printable a && all_printable b.
Proof.
  induction a as [| c a IH]; cbn [append all_printable]; [reflexivity |].
  rewrite IH. destruct (Nat.leb 32 (nat_of_ascii c) && Nat.ltb (nat_of_ascii c) 127);
    reflexivity.
Qed.

Lemma hex_digit_printable (n : nat) : all_printable (String (hex_digit n) "") = true.
Proof.
  unfold hex_digit. do 16 (destruct n as [| n]; [reflexivity |]). reflexivity.
Qed.

Lemma hex_of_nat2_printable (n : nat) : all_printable (hex_of_nat2 n) = true.
Proof.
  unfold hex_of_nat2. change (String (hex_digit (n / 16)) (String (hex_digit (n mod 16)) ""))
    with (String (hex_digit (n / 16)) "" ++ String (hex_digit (n mod 16)) "").
  rewrite all_printable_app, !hex_digit_printable. reflexivity.
Qed.

Lemma escape_char_printable (c : ascii) : all_printable (escape_char c) = true.
Proof.
  unfold escape_char. cbv zeta.
  destruct (Nat.eqb (nat_of_ascii c) 34); [reflexivity |].
  destruct (Nat.eqb (nat_of_ascii c) 92); [reflexivity |].
  destruct (Nat.eqb (nat_of_ascii c) 10); [reflexivity |].
  destruct (Nat.eqb (nat_of_ascii c) 13); [reflexivity |].
  destruct (Nat.eqb (nat_of_ascii c) 9); [reflexivity |].
  destruct (Nat.eqb (nat_of_ascii c) 8); [reflexivity |].
  destruct (Nat.eqb (nat_of_ascii c) 12); [reflexivity |].
  destruct (Nat.ltb (nat_of_ascii c) 32 || Nat.leb 127 (nat_of_ascii c)) eqn:E.
  - rewrite !all_printable_app, hex_of_nat2_printable. reflexivity.
  - cbn [all_printable]. apply orb_false_iff in E as [E1 E2].
    apply Nat.ltb_ge in E1. apply Nat.leb_gt in E2.
    apply Nat.leb_le in E1. apply Nat.ltb_lt in E2. rewrite E1, E2. reflexivity.
Qed.

Lemma escape_string_printable (s : string) : all_printable (escape_string s) = true.
Proof.
  induction s as [| c s IH]; [reflexivity |].
  cbn [escape_string]. rewrite all_printable_app, escape_char_printable, IH. reflexivity.
Qed.

Lemma dumps_str_printable (s : string) : all_printable (dumps_str s) = true.
Proof.
  unfold dumps_str. rewrite !all_printable_app, escape_string_printable. reflexivity.
Qed.

Lemma string_of_uint_printable (u : Decimal.uint) :
  all_printable (NilEmpty.string_of_uint u) = true.
Proof. induction u; cbn [NilEmpty.string_of_uint all_printable]; auto. Qed.

Lemma Z_to_string_printable (z : Z) : all_printable (Z_to_string z) = true.
Proof.
  unfold Z_to_string, NilEmpty.string_of_int.
  destruct (Z.to_int z); cbn [all_printable]; apply string_of_uint_printable.
Qed.

Lemma py_join_printable (sep : string) (xs : list string) :
  all_printable sep = true -> Forall (fun x => all_printable x = true) xs ->
  all_printable (py_join sep xs) = true.
Proof.
  intros Hsep Hxs. induction Hxs as [| x xs Hx Hxs IH]; [reflexivity |].
  destruct xs as [| y ys]; [exact Hx |].
  change (py_join sep (x :: y :: ys)) with (x ++ sep ++ py_join sep (y :: ys)).
  rewrite !all_printable_app, Hx, Hsep, IH. reflexivity.
Qed.

Lemma json_dumps_printable (j : json) :
  floats_printable j = true -> all_printable (json_dumps j) = true.
Proof.
  induction j as [| b | z | r | s | l IH | d IH] using json_nested_ind; intro Hf.
  - reflexivity.
  - destruct b; reflexivity.
  - apply Z_to_string_printable.
  - cbn [json_dumps]. destruct (String.eqb r "inf"); [reflexivity |].
    destruct (String.eqb r "-inf"); [reflexivity |].
    destruct (String.eqb r "nan"); [reflexivity | exact Hf].
  - apply dumps_str_printable.
  - cbn [json_dumps]. rewrite !all_printable_app. cbn [all_printable].
    rewrite py_join_printable; [reflexivity | reflexivity |].
    induction IH as [| x l Hx _ IHl]; [constructor |].
    cbn [floats_printable] in Hf. apply andb_true_iff in Hf as [Hx' Hl].
    constructor; [exact (Hx Hx') | exact (IHl Hl)].
  - cbn [json_dumps]. rewrite !all_printable_app. cbn [all_printable].
    rewrite py_join_printable; [reflexivity | reflexivity |].
    induction IH as [| [k v] d Hv _ IHd]; [constructor |].
    cbn [floats_printable] in Hf. apply andb_true_iff in Hf as [Hv' Hd].
    constructor; [| exact (IHd Hd)].
    cbn [snd] in Hv. rewrite !all_printable_app, dumps_str_printable, (Hv Hv'). reflexivity.
Qed.

Lemma floats_printable_assoc (d : list (string * json)) (k : string) (v : json) :
  floats_printable (JObj d) = true -> assoc d k = Some v -> floats_printable v = true.
Proof.
  induction d as [| [k' v'] d IH]; cbn [assoc]; [discriminate |].
  cbn [floats_printable]. intros H. apply andb_true_iff in H as [Hv' Hd].
  destruct (String.eqb k k'); [intro E; injection E as <-; exact Hv' |].
  exact (IH Hd).
Qed.

End Printable.

(** X13.  [json.dumps] (with its default [ensure_ascii]) writes only
    printable ASCII, so no line break, whatever the strings hold; hence
    every chunk frame of the translating gateway's stream is the single
    line ["data: <json>"] followed by the blank line, and the client's
    event parser cannot be split by a backend text with newlines. *)
Theorem chunk_frame_single_line :
  (forall j, floats_printable j = true -> all_printable (json_dumps j) = true)
  /\ (forall m rnd now c ch, floats_printable c = true ->
        Envelope.format_chunk m rnd now c = Ok ch ->
        exists body, Envelope.chunk_frame ch = data_frame_prefix ++ body ++ nl ++ nl
                     /\ all_printable body = true).
Proof.
  split; [exact json_dumps_printable |].
  intros m rnd now c ch Hc Hf. exists (json_dumps ch). split; [reflexivity |].
  apply json_dumps_printable.
  destruct c as [| | | | | | d]; try discriminate.
  unfold Envelope.format_chunk in Hf. rewrite !py_get_obj in Hf. cbn [bind] in Hf.
  injection Hf as <-. unfold dict_get.
  assert (Hr : floats_printable (match assoc d "response" with Some v => v | None => JStr "" end)
               = true).
  { destruct (assoc d "response") eqn:E; [exact (floats_printable_assoc d _ _ Hc E) | reflexivity]. }
  cbn [floats_printable]. rewrite Hr.
  destruct (truthy _); reflexivity.
Qed.

(** ** Envelope ids *)

Section EnvelopeIds.

Lemma lower_hex_app (a b : string) : lower_hex (a ++ b) = lower_hex a && lower_hex b.
Proof.
  induction a as [| c a IH]; cbn [append lower_hex]; [reflexivity |].
  rewrite IH, andb_assoc. reflexivity.
Qed.

Lemma hex_digit_lower_hex (n : nat) : lower_hex (String (hex_digit n) "") = true.
Proof.
  unfold hex_digit. do 16 (destruct n as [| n]; [reflexivity |]). reflexivity.
Qed.

Lemma bytes_hex_shape (bs : list Byte.byte) :
  String.length (bytes_hex bs) = 2 * List.length bs /\ lower_hex (bytes_hex bs) = true.
Proof.
  induction bs as [| b bs [IHl IHh]]; [split; reflexivity |].
  assert (Hx : String.length (hex_of_nat2 (Byte.to_nat b)) = 2
               /\ lower_hex (hex_of_nat2 (Byte.to_nat b)) = true).
  { split; [reflexivity |]. unfold hex_of_nat2.
    change (String (hex_digit (Byte.to_nat b / 16)) (String (hex_digit (Byte.to_nat b mod 16)) ""))
      with (String (hex_digit (Byte.to_nat b / 16)) ""
            ++ String (hex_digit (Byte.to_nat b mod 16)) "").
    rewrite lower_hex_app, !hex_digit_lower_hex. reflexivity. }
  destruct Hx as [Hxl Hxh].
  cbn [bytes_hex]. rewrite string_length_app, lower_hex_app, IHh, IHl, Hxl, Hxh.
  cbn [List.length]. split; [lia | reflexivity].
Qed.

End EnvelopeIds.

(** X14.  Every envelope of the translating gateways (a stream chunk or a
    whole response) has the id "chatcmpl-" followed by the lowercase hex
    of the random bytes, two digits per byte (24 digits for the 12 bytes of
    [os.urandom(12)]), the [created] time and the configured model. *)
Theorem envelope_id_is_hex (m : string) (rnd : list Byte.byte) (now : Z) (c env : json) :
  (Envelope.format_chunk m rnd now c = Ok env \/ Envelope.format_response m rnd now c = Ok env) ->
  exists h, jget env "id" = Some (JStr ("chatcmpl-" ++ h))
    /\ String.length h = 2 * List.length rnd /\ lower_hex h = true
    /\ jget env "created" = Some (JInt now) /\ jget env "model" = Some (JStr m).
Proof.
  intro H. exists (bytes_hex rnd).
  assert (Hid : jget env "id" = Some (JStr ("chatcmpl-" ++ bytes_hex rnd))
                /\ jget env "created" = Some (JInt now) /\ jget env "model" = Some (JStr m)).
  { destruct H as [H | H].
    - unfold Envelope.format_chunk in H.
      destruct (py_get c "response" (JStr "")); cbn [bind] in H; [| discriminate].
      destruct (py_get c "done" (JBool false)); cbn [bind] in H; [| discriminate].
      injection H as <-. repeat split.
    - unfold Envelope.format_response in H.
      destruct (py_getitem c "response"); cbn [bind] in H; [| discriminate].
      injection H as <-. repeat split. }
  destruct (bytes_hex_shape rnd) as [Hl Hh]. destruct Hid as [Hid [Hc Hm]].
  repeat split; assumption.
Qed.

Lemma envelope_id_is_hex_witness :
  Envelope.format_chunk "m" [Byte.x00; Byte.xff] 7 (JObj [])
    = Envelope.format_chunk "m" [Byte.x00; Byte.xff] 7 (JObj [])
  /\ exists h, jget (match Envelope.format_chunk "m" [Byte.x00; Byte.xff] 7 (JObj []) with
                   | Ok env => env | Err _ => JNull end) "id" = Some (JStr ("chatcmpl-" ++ h))
       /\ String.length h = 4 /\ lower_hex h = true.
Proof.
  split; [reflexivity |].
  destruct (envelope_id_is_hex "m" [Byte.x00; Byte.xff] 7 (JObj [])
              (match Envelope.format_chunk "m" [Byte.x00; Byte.xff] 7 (JObj []) with
               | Ok env => env | Err _ => JNull end) (or_introl eq_refl))
    as [h [Hid [Hl [Hh _]]]].
  exists h. split; [exact Hid | split; [exact Hl | exact Hh]].
Defined.
